(** * BIDS metadata parser (datalad/metadata/parsers/bids.py)

    A shallow embedding of the parser and the properties of its
    dataset-level and per-file metadata records.

    Conventions of the embedding.
    - Python dictionaries that are only looked up by key (the descriptor
      metadata, the metadata records) are [gmap string pyval]; dictionaries
      whose iteration order is observable (a row of the subject table, the
      [path_props] rule table) are association lists.
    - Text is [string], read as a sequence of code points: a character is
      the code point of its number, from 0 to 255 (ASCII and Latin-1).  On
      these [str.lower], [str.isspace], [str.strip] and the pattern syntax of
      [re] are modelled as Python defines them on code points; text with
      code points above 255 has no representation here.
    - A call that may raise returns a [result]; a generator is the list of
      the values it yields together with the way it ends. *)

From Stdlib Require Import Ascii String ZArith.
From stdpp Require Import base option list strings gmap fin_maps.

(** ** Python values *)

(** The values found in decoded JSON and in the subject table.  Numbers
    are kept as integers: the parser only tests them for truth and passes
    them on. *)
#[warnings="-register-all"]
Inductive pyval : Type :=
  | VNone
  | VBool (b : bool)
  | VInt (n : Z)
  | VStr (s : string)
  | VList (l : list pyval)
  | VDict (d : list (string * pyval)).

(** [bool(v)] *)
Definition truthy (v : pyval) : bool :=
  match v with
  | VNone => false
  | VBool b => b
  | VInt n => negb (Z.eqb n 0)
  | VStr s => negb (String.eqb s "")
  | VList l => match l with [] => false | _ => true end
  | VDict d => match d with [] => false | _ => true end
  end.

(** [isinstance(v, dict)] *)
Definition is_dict (v : pyval) : bool :=
  match v with VDict _ => true | _ => false end.

(** A value is scalar when it is neither a list nor a dict. *)
Definition is_scalar (v : pyval) : bool :=
  match v with VList _ | VDict _ => false | _ => true end.

(** A nested structure is a value that is not scalar. *)
Definition nested_structure (v : pyval) : bool := negb (is_scalar v).

(** ** Exceptions, results, generators *)

Inductive exn : Type :=
  | AttributeError
  | re_error
  | ExternalError (what : string).

Inductive result (A : Type) : Type :=
  | Ok (a : A)
  | Raise (e : exn).
Arguments Ok {A} a.
Arguments Raise {A} e.

(** What a consumer observes when it drains a generator: the values
    yielded, in order, and then either exhaustion ([None]) or an exception
    that leaves the generator ([Some e]). *)
Record gen (A : Type) : Type := Gen { yielded : list A; ending : option exn }.
Arguments Gen {A} yielded ending.
Arguments yielded {A} g.
Arguments ending {A} g.

Definition gen_done {A} : gen A := Gen [] None.
Definition gen_raise {A} (e : exn) : gen A := Gen [] (Some e).
Definition gen_yield {A} (a : A) (g : gen A) : gen A :=
  Gen (a :: yielded g) (ending g).

(** ** Strings *)

(** [s.startswith(p)] *)
Fixpoint startswith (s p : string) : bool :=
  match p with
  | EmptyString => true
  | String c p' =>
      match s with
      | EmptyString => false
      | String d s' => Ascii.eqb c d && startswith s' p'
      end
  end.

(** [s.endswith(suffix)] *)
Definition endswith (s suffix : string) : bool :=
  let n := String.length s in
  let m := String.length suffix in
  if Nat.leb m n then String.eqb (String.substring (n - m) m s) suffix else false.

(** [c.lower()] on a code point below 256: the capitals [A]..[Z] (65..90)
    and the Latin-1 capitals 192..222, the multiplication sign 215 apart,
    move up by 32; every other character is its own lowercase. *)
Definition lower_char (c : ascii) : ascii :=
  let n := N_of_ascii c in
  if ((N.leb 65 n && N.leb n 90)
      || (N.leb 192 n && N.leb n 222 && negb (N.eqb n 215)))%bool
  then ascii_of_N (n + 32) else c.

(** [s.lower()] *)
Fixpoint lower (s : string) : string :=
  match s with
  | EmptyString => EmptyString
  | String c s' => String (lower_char c) (lower s')
  end.

(** [c.isspace()] on a code point below 256: tab, line feed, vertical tab,
    form feed, carriage return (9..13), the four separators 28..31, space
    (32), next line (133) and no-break space (160). *)
Definition isspace (c : ascii) : bool :=
  let n := N_of_ascii c in
  ((N.leb 9 n && N.leb n 13) || (N.leb 28 n && N.leb n 32)
   || N.eqb n 133 || N.eqb n 160)%bool.

(** [s.lstrip()] *)
Fixpoint lstrip (s : string) : string :=
  match s with
  | EmptyString => EmptyString
  | String c s' => if isspace c then lstrip s' else s
  end.

(** [s.rstrip()] *)
Fixpoint rstrip (s : string) : string :=
  match s with
  | EmptyString => EmptyString
  | String c s' =>
      match rstrip s' with
      | EmptyString => if isspace c then EmptyString else String c EmptyString
      | r => String c r
      end
  end.

(** [s.strip()] *)
Definition strip (s : string) : string := lstrip (rstrip s).

(** [os.path.join(a, b)] on POSIX paths. *)
Definition opj (a b : string) : string :=
  if startswith b "/" then b
  else if (String.eqb a "" || endswith a "/")%bool then a +:+ b
  else a +:+ "/" +:+ b.

(** ** Regular expressions

    [re.compile] and [Pattern.match] are modelled on the fragment of the
    pattern syntax that consists of an optional leading [^] followed by
    items, an item being an ordinary character or [.], optionally followed
    by [*].  What [re] does with any other pattern is left to a parameter
    ([re_rest] below). *)

Inductive atom : Type :=
  | AChar (c : ascii)
  | AAny.

Record item : Type := Item { item_atom : atom; item_star : bool }.

(** The characters with a special meaning in a pattern. *)
Definition re_special (c : ascii) : bool :=
  existsb (Ascii.eqb c) (list_ascii_of_string ".^$*+?{}[]\|()").

Definition atom_of (c : ascii) : option atom :=
  if Ascii.eqb c "." then Some AAny
  else if re_special c then None
  else Some (AChar c).

Fixpoint parse_items (s : string) : option (list item) :=
  match s with
  | EmptyString => Some []
  | String c rest =>
      match atom_of c with
      | None => None
      | Some a =>
          match rest with
          | EmptyString => Some [Item a false]
          | String c' rest' =>
              if Ascii.eqb c' "*"
              then cons (Item a true) <$> parse_items rest'
              else cons (Item a false) <$> parse_items rest
          end
      end
  end.

(** The items of a pattern of the fragment, [None] outside of it. *)
Definition fragment (pat : string) : option (list item) :=
  match pat with
  | EmptyString => Some []
  | String c body => if Ascii.eqb c "^" then parse_items body else parse_items pat
  end.

(** An ordinary character matches itself; [.] matches every character
    (one code point) except the line feed. *)
Definition atom_ok (a : atom) (c : ascii) : bool :=
  match a with
  | AChar x => Ascii.eqb x c
  | AAny => negb (Ascii.eqb c "010")
  end.

(** [match_items its s]: some prefix of [s] matches the items [its], which
    is when [Pattern.match] returns a match object. *)
Fixpoint match_items (its : list item) (s : string) : bool :=
  match its with
  | [] => true
  | it :: r =>
      if item_star it then
        (fix star (s : string) : bool :=
           match_items r s
           || match s with
              | EmptyString => false
              | String c s' => atom_ok (item_atom it) c && star s'
              end) s
      else
        match s with
        | EmptyString => false
        | String c s' => atom_ok (item_atom it) c && match_items r s'
        end
  end.

(** A compiled pattern: its source text and whether it matches at the start
    of a string.  Two compiled patterns are the same dictionary key when
    their source texts are equal (patterns compare by source and flags, and
    [re.compile] hands out the cached object for a source seen before). *)
Record Pattern : Type := { pattern : string; rx_match : string → bool }.

(** [re.compile(pat)], with [re_rest] for the patterns outside the fragment:
    [re_rest pat = None] when [re] rejects the pattern. *)
Definition re_compile (re_rest : string → option (string → bool))
    (pat : string) : result Pattern :=
  match fragment pat with
  | Some its => Ok {| pattern := pat; rx_match := match_items its |}
  | None =>
      match re_rest pat with
      | Some m => Ok {| pattern := pat; rx_match := m |}
      | None => Raise re_error
      end
  end.

(** Sequencing of calls that may raise. *)
#[global] Instance result_ret : MRet result := @Ok.
#[global] Instance result_bind : MBind result :=
  λ A B f m, match m with Ok a => f a | Raise e => Raise e end.

(** ** Dictionaries *)

(** [{key(k): v for k, v in d.items() if keep(v)}] *)
Definition dict_comprehension (key : string → string) (keep : pyval → bool)
    (d : gmap string pyval) : gmap string pyval :=
  foldl (λ acc kv, if keep kv.2 then <[key kv.1 := kv.2]> acc else acc)
        ∅ (map_to_list d).

(** [d[rx] = v] on a dictionary keyed by compiled patterns, in insertion
    order: an existing key keeps its place and gets the new value. *)
Fixpoint setitem {V} (d : list (Pattern * V)) (rx : Pattern) (v : V)
    : list (Pattern * V) :=
  match d with
  | [] => [(rx, v)]
  | (rx', v') :: d' =>
      if String.eqb (pattern rx') (pattern rx) then (rx', v) :: d'
      else (rx', v') :: setitem d' rx v
  end.

(** ** The subject table *)

(** A row as [csv.DictReader] hands it out: the columns of the header in
    order, each with the text of its field, or [None] (the reader's
    [restval]) when the line ended before this column; and under the key
    [None] (the reader's [restkey]) the fields beyond the header, when the
    line had more fields than the header. *)
Record Row : Type := { named : list (string * option string);
                       extra : option (list string) }.

(** What iterating [csv.DictReader(tsvfile, dialect)] gives: the rows, and
    the exception that ends the iteration early, if any (an unreadable
    file, a malformed line). *)
Record Table : Type := { rows : list Row; reader_error : option exn }.

(** [row[k]] for a key [k] taken from the row. *)
Fixpoint row_item (r : list (string * option string)) (k : string) : option string :=
  match r with
  | [] => None
  | (k', v) :: r' => if String.eqb k' k then v else row_item r' k
  end.

(** [k in row] *)
Definition row_has (r : Row) (k : string) : bool :=
  existsb (λ kv, String.eqb kv.1 k) (named r).

(** ** The environment of a call

    Everything the parser reads from outside: the file system, the layout
    library, the configuration, and the parts of the package that are not
    in this module. *)
Definition Layout : Type := string → result (gmap string pyval).

Record Env : Type := {
  (** [self.ds.path] *)
  ds_path : string;
  (** [self.paths], the candidate files, relative to the dataset root *)
  paths : list string;
  (** [os.path.exists] *)
  path_exists : string → bool;
  (** [BIDSLayout(path)]; the layout answers [get_metadata(path)] *)
  BIDSLayout : string → result Layout;
  (** [open_r_encdetect(fname).read()] *)
  open_r_encdetect : string → result string;
  (** [open(fname)] read through [csv.DictReader] with the sniffed dialect *)
  DictReader : string → Table;
  (** [cfg.get('datalad.runtime.raiseonerror')], as a truth value *)
  raiseonerror : bool;
  (** [datalad.metadata.definitions.vocabulary_id] *)
  vocabulary_id : pyval;
  (** [re.compile] outside the modelled fragment of the pattern syntax *)
  re_rest : string → option (string → bool)
}.

(** ** Module constants *)

Definition vocabulary : list (string * pyval) :=
  [("bids:age(years)",
    VDict [("@id", VStr "pato:0000011");
           ("unit", VStr "uo:0000036");
           ("unit_label", VStr "year");
           ("description",
            VStr "age of a sample (organism) at the time of data acquisition in years")])].

Definition content_metakey_map (k : string) : option string :=
  if String.eqb k "participant_id" then Some "bids:participant_id"
  else if String.eqb k "age" then Some "bids:age(years)"
  else None.

Definition sex_label_map (k : string) : option string :=
  if String.eqb k "f" then Some "female"
  else if String.eqb k "m" then Some "male"
  else None.

Definition _dsdescr_fname : string := "dataset_description.json".

Definition _key2stdkey (k : string) : option string :=
  if String.eqb k "Name" then Some "name"
  else if String.eqb k "License" then Some "license"
  else if String.eqb k "Authors" then Some "author"
  else if String.eqb k "ReferencesAndLinks" then Some "citation"
  else if String.eqb k "Funding" then Some "fundedby"
  else if String.eqb k "Description" then Some "description"
  else None.

(** [self._key2stdkey.get(k, 'comment<{}>'.format(k))] *)
Definition stdkey (k : string) : string :=
  default ("comment<" +:+ k +:+ ">") (_key2stdkey k).

Definition bids_url : string := "http://bids.neuroimaging.io".

(** ** Dataset metadata *)

(** [v.strip()] on a value: only strings have the method. *)
Definition py_strip (v : pyval) : result string :=
  match v with
  | VStr s => Ok (strip s)
  | _ => Raise AttributeError
  end.

(** [a or b] *)
Definition py_or (a b : pyval) : pyval := if truthy a then a else b.

(** The reference URL of the convention for a stripped version string:
    [bids_defurl], with the version's PDF appended when there is a version. *)
Definition bids_defurl (bids_version : string) : string :=
  if negb (String.eqb bids_version "")
  then bids_url +:+ "/bids_spec" +:+ bids_version +:+ ".pdf"
  else bids_url.

Definition _get_dsmeta (env : Env) (bids : Layout) : result (gmap string pyval) :=
  raw ← bids (opj (ds_path env) _dsdescr_fname);
  let meta := dict_comprehension stdkey (λ _, true) raw in
  let README_fname := opj (ds_path env) "README" in
  meta ← (if (negb (truthy (default VNone (meta !! "description")))
              && path_exists env README_fname)%bool
          then desc ← open_r_encdetect env README_fname;
               Ok (<["description" := VStr (strip desc)]> meta)
          else Ok meta);
  bids_version ←
    py_strip (py_or (default (VStr "") (meta !! "comment<BIDSVersion>")) (VStr ""));
  let bids_defurl := bids_defurl bids_version in
  let meta := <["conformsto" := VStr bids_defurl]> meta in
  let context :=
    [("bids",
      VDict [("@id", VStr (bids_defurl +:+ "#"));
             ("description",
              VStr "ad-hoc vocabulary for the Brain Imaging Data Structure (BIDS) standard");
             ("type", vocabulary_id env)])] ++ vocabulary in
  Ok (<["@context" := VDict context]> meta).

(** ** Subject rules *)

(** A rule: a compiled path pattern and the properties to overlay. *)
Definition Rule : Type := Pattern * gmap string pyval.

(** ['{}'.format(v)] for a field of a row. *)
Definition format_field (v : option string) : string :=
  match v with
  | Some s => s
  | None => "None"
  end.

(** The standardized key of a column of the subject table. *)
Definition column_key (k : string) : string :=
  let normk := lower k in
  default ("comment<participant#" +:+ normk +:+ ">") (content_metakey_map normk).

Definition is_sex_key (hk : string) : bool :=
  (String.eqb hk "comment<participant#sex>"
   || String.eqb hk "comment<participant#gender>")%bool.

(** [sex_label_map.get(row[k].lower(), row[k].lower())]; [None] has no
    method [lower]. *)
Definition sex_label (v : option string) : result (option string) :=
  match v with
  | Some s => Ok (Some (default (lower s) (sex_label_map (lower s))))
  | None => Raise AttributeError
  end.

(** One turn of the loop [for k in row] for a column [k] of the header. *)
Definition column (r : Row) (props : gmap string pyval) (k : string)
    : result (gmap string pyval) :=
  let hk := column_key k in
  val ← (if is_sex_key hk then sex_label (row_item (named r) k)
         else Ok (row_item (named r) k));
  Ok (match val with
      | Some s => if negb (String.eqb s "") then <[hk := VStr s]> props else props
      | None => props
      end).

(** The loop [for k in row]: the columns of the header in order, then the
    key [None] when the row has one, on which [k.lower()] raises. *)
Definition row_props (r : Row) : result (gmap string pyval) :=
  props ← foldl (λ acc k, props ← acc; column r props k) (Ok ∅) (named r).*1;
  match extra r with
  | Some _ => Raise AttributeError
  | None => Ok props
  end.

(** [r'^{}/.*'.format(row['participant_id'])] *)
Definition rule_pattern (r : Row) : string :=
  "^" +:+ format_field (row_item (named r) "participant_id") +:+ "/.*".

(** The loop over the rows of [yield_participant_info]; [tail] is how the
    reader ends after the rows. *)
Fixpoint participant_rules (rest : string → option (string → bool))
    (rs : list Row) (tail : option exn) : gen Rule :=
  match rs with
  | [] => Gen [] tail
  | r :: rs' =>
      if negb (row_has r "participant_id") then gen_done
      else
        match row_props r with
        | Raise e => gen_raise e
        | Ok props =>
            if Nat.eqb (size props) 0 then participant_rules rest rs' tail
            else
              match re_compile rest (rule_pattern r) with
              | Raise e => gen_raise e
              | Ok rx => gen_yield (rx, props) (participant_rules rest rs' tail)
              end
        end
  end.

Definition yield_participant_info (env : Env) (fname : string) : gen Rule :=
  let t := DictReader env fname in
  participant_rules (re_rest env) (rows t) (reader_error t).

(** ** Per-file metadata *)

(** The rule table [path_props] of [_get_cnmeta]: the rules yielded before
    the loader ends or raises, stored under their patterns. *)
Definition path_props (env : Env) : list Rule :=
  let participants_fname := opj (ds_path env) "participants.tsv" in
  if path_exists env participants_fname
  then foldl (λ pp rule, setitem pp rule.1 rule.2) []
             (yielded (yield_participant_info env participants_fname))
  else [].

(** [for rx in path_props: if rx.match(f): md.update(path_props[rx])] *)
Definition overlay (pp : list Rule) (f : string) (md : gmap string pyval)
    : gmap string pyval :=
  foldl (λ md rule, if rx_match rule.1 f then rule.2 ∪ md else md) md pp.

(** The [try] block of the loop body: the record before the overlay. *)
Definition base_record (env : Env) (bids : Layout) (f : string)
    : result (gmap string pyval) :=
  match bids (opj (ds_path env) f) with
  | Ok raw =>
      Ok (dict_comprehension (String.append "bids:") (λ v, negb (is_dict v)) raw)
  | Raise e => if raiseonerror env then Raise e else Ok ∅
  end.

(** The loop [for f in self.paths]. *)
Fixpoint cnmeta_loop (env : Env) (bids : Layout) (pp : list Rule)
    (fs : list string) : gen (string * gmap string pyval) :=
  match fs with
  | [] => gen_done
  | f :: fs' =>
      if endswith f ".json" then cnmeta_loop env bids pp fs'
      else
        match base_record env bids f with
        | Raise e => gen_raise e
        | Ok md => gen_yield (f, overlay pp f md) (cnmeta_loop env bids pp fs')
        end
  end.

Definition _get_cnmeta (env : Env) (bids : Layout)
    : gen (string * gmap string pyval) :=
  cnmeta_loop env bids (path_props env) (paths env).

(** ** Entry point *)

Definition get_metadata (env : Env) (dataset : string) (content : bool)
    : result (gmap string pyval * gen (string * gmap string pyval)) :=
  if negb (path_exists env (opj (ds_path env) _dsdescr_fname))
  then Ok (∅, gen_done)
  else
    bids ← BIDSLayout env (ds_path env);
    dsmeta ← _get_dsmeta env bids;
    if negb content then Ok (dsmeta, gen_done)
    else Ok (dsmeta, _get_cnmeta env bids).

(** ** Surrounding whitespace

    What it means for a text to be another one with its surrounding
    whitespace stripped, said without [strip]. *)

(** A text made of whitespace only (the empty text included). *)
Fixpoint whitespace_only (s : string) : bool :=
  match s with
  | EmptyString => true
  | String c s' => isspace c && whitespace_only s'
  end.

(** [stripped s t]: [s] is [t] between two runs of whitespace, and [t] is
    empty or begins and ends with a character that is not whitespace. *)
Definition stripped (s t : string) : Prop :=
  ∃ l r, s = l +:+ t +:+ r
         ∧ whitespace_only l = true ∧ whitespace_only r = true
         ∧ (t = ""
            ∨ ((∃ c t', t = String c t' ∧ isspace c = false)
               ∧ (∃ t' c, t = t' +:+ String c "" ∧ isspace c = false))).

(** ** Literal identifiers *)

(** A participant identifier without any special character. *)
Definition literal (s : string) : bool :=
  forallb (λ c, negb (re_special c)) (list_ascii_of_string s).

(** The items of a literal text. *)
Definition literal_items (s : string) : list item :=
  (λ c, Item (AChar c) false) <$> list_ascii_of_string s.

(** The candidates that are not sidecar files. *)
Abbreviation not_json := (λ f : string, negb (endswith f ".json")).

(** ** Example inputs *)

(** A layout that answers [descr] for the descriptor file of the dataset
    at [/ds] and knows nothing about any other file. *)
Definition example_layout (descr : gmap string pyval) : Layout :=
  λ p, if String.eqb p "/ds/dataset_description.json" then Ok descr else Ok ∅.

(** A table with no rows. *)
Definition empty_table : Table := {| rows := []; reader_error := None |}.

(** A dataset at [/ds] in which the files [files] (absolute paths) exist,
    with README text [readme], subject table [table], candidate files
    [candidates] and strictness [strict]. *)
Definition example_env (files : list string) (readme : string) (table : Table)
    (candidates : list string) (strict : bool) : Env :=
  {| ds_path := "/ds";
     paths := candidates;
     path_exists := λ p, existsb (String.eqb p) files;
     BIDSLayout := λ _, Ok (example_layout ∅);
     open_r_encdetect := λ _, Ok readme;
     DictReader := λ _, table;
     raiseonerror := strict;
     vocabulary_id := VStr "http://purl.org/dc/dcam/VocabularyEncodingScheme";
     re_rest := λ _, None |}.

(** A dataset with a descriptor and a README and nothing else. *)
Definition readme_env (readme : string) : Env :=
  example_env ["/ds/dataset_description.json"; "/ds/README"] readme empty_table [] false.

(** A dataset with a descriptor and no README. *)
Definition plain_env : Env :=
  example_env ["/ds/dataset_description.json"] "" empty_table [] false.

(** A layout that fails on the files [bad] (absolute paths) and knows
    nothing about the others. *)
Definition failing_layout (bad : list string) : Layout :=
  λ p, if existsb (String.eqb p) bad then Raise (ExternalError "get_metadata") else Ok ∅.

(** A layout that answers [meta] for the file [file] (absolute path). *)
Definition file_layout (file : string) (meta : gmap string pyval) : Layout :=
  λ p, if String.eqb p file then Ok meta else Ok ∅.

(** The same environment with another behaviour of [re] outside the
    modelled fragment. *)
Definition with_re_rest (env : Env) (rest : string → option (string → bool)) : Env :=
  {| ds_path := ds_path env;
     paths := paths env;
     path_exists := path_exists env;
     BIDSLayout := BIDSLayout env;
     open_r_encdetect := open_r_encdetect env;
     DictReader := DictReader env;
     raiseonerror := raiseonerror env;
     vocabulary_id := vocabulary_id env;
     re_rest := rest |}.

(** A row all of whose columns were present on its line. *)
Definition full_row (fields : list (string * string)) : Row :=
  {| named := (λ kv, (kv.1, Some kv.2)) <$> fields; extra := None |}.

(** A dataset with a descriptor and a subject table. *)
Definition subjects_env (table : list Row) (candidates : list string) (strict : bool) : Env :=
  example_env ["/ds/dataset_description.json"; "/ds/participants.tsv"] ""
    {| rows := table; reader_error := None |} candidates strict.

(** The table of two subjects: sub-01 aged 30 of sex F, sub-02 without age. *)
Definition two_subjects : list Row :=
  [full_row [("participant_id", "sub-01"); ("age", "30"); ("sex", "F")];
   full_row [("participant_id", "sub-02"); ("age", ""); ("sex", "")]].

(** The rows that the reader gives for a tab-separated table whose fields
    are all written in double quotes (so that the sniffer settles on the
    tab) and whose second line stops after the identifier: header
    participant_id, age, sex; lines sub-01, 30, F; sub-02; sub-03, 25, M.
    The reader fills the missing fields of the short line with [None]. *)
Definition short_line_subjects : list Row :=
  [full_row [("participant_id", "sub-01"); ("age", "30"); ("sex", "F")];
   {| named := [("participant_id", Some "sub-02"); ("age", None); ("sex", None)];
      extra := None |};
   full_row [("participant_id", "sub-03"); ("age", "25"); ("sex", "M")]].

(** The loop over the columns, from given properties. *)
Abbreviation columns_from r start ks :=
  (foldl (λ acc k, props ← acc; column r props k) start ks).

(** The descriptor metadata after the key remapping. *)
Abbreviation remapped raw := (dict_comprehension stdkey (λ _, true) raw).

(** A dataset at [/ds] without any file, asked about one candidate. *)
Definition bare_env : Env := example_env [] "" empty_table ["sub-01/anat/t1.nii"] false.

(** Two data files and a sidecar; the query of the first data file fails. *)
Definition strict_failing_env : Env :=
  subjects_env [] ["a.nii"; "a.json"; "b.nii"] true.

Definition lenient_failing_env : Env :=
  subjects_env [] ["a.nii"; "a.json"; "b.nii"] false.

Definition a_fails : Layout := failing_layout ["/ds/a.nii"].

(** One subject, sub-01 aged 30, and one file of theirs whose query fails. *)
Definition one_subject : list Row :=
  [full_row [("participant_id", "sub-01"); ("age", "30")]].

Definition sub01_fails_env (strict : bool) : Env :=
  subjects_env one_subject ["sub-01/anat/t1.nii"; "sub-02/anat/t1.nii"] strict.

Definition sub01_fails : Layout := failing_layout ["/ds/sub-01/anat/t1.nii"].

(** A functional image whose metadata holds a number and a list of
    mappings. *)
Definition bold_meta : gmap string pyval :=
  {["RepetitionTime" := VInt 2; "Series" := VList [VDict [("Number", VInt 1)]]]}.

Definition bold_env : Env := subjects_env [] ["sub-01/func/bold.nii"] false.

Definition bold_layout : Layout := file_layout "/ds/sub-01/func/bold.nii" bold_meta.

(** A subject whose identifier holds a dot, and a file of another subject
    whose name differs at the place of the dot. *)
Definition dotted_env : Env :=
  subjects_env [full_row [("participant_id", "sub.01"); ("age", "30")]]
               ["subX01/anat/t1.nii"] false.

(** A subject whose identifier holds a star, and a file of theirs. *)
Definition starred_env : Env :=
  subjects_env [full_row [("participant_id", "sub*1"); ("age", "30")]]
               ["sub*1/anat/t1.nii"] false.

Definition subject_files : list string :=
  ["sub-01/anat/t1.nii"; "sub-02/anat/t1.nii"; "sub-03/anat/t1.nii"].


(** The rule of sub-01: its compiled pattern and its properties. *)
Definition sub01_pattern : Pattern :=
  {| pattern := "^sub-01/.*";
     rx_match := match_items (literal_items "sub-01"
                              ++ [Item (AChar "/") false; Item AAny true]) |}.

Definition sub01_props : gmap string pyval :=
  <["bids:age(years)" := VStr "30"]> (<["bids:participant_id" := VStr "sub-01"]> ∅).

(** The same environment with a README that cannot be read. *)
Definition unreadable_readme (env : Env) : Env :=
  {| ds_path := ds_path env;
     paths := paths env;
     path_exists := path_exists env;
     BIDSLayout := BIDSLayout env;
     open_r_encdetect := λ _, Raise (ExternalError "open");
     DictReader := DictReader env;
     raiseonerror := raiseonerror env;
     vocabulary_id := vocabulary_id env;
     re_rest := re_rest env |}.

(** The same environment with a layout that cannot be built. *)
Definition broken_layout (env : Env) : Env :=
  {| ds_path := ds_path env;
     paths := paths env;
     path_exists := path_exists env;
     BIDSLayout := λ _, Raise (ExternalError "BIDSLayout");
     open_r_encdetect := open_r_encdetect env;
     DictReader := DictReader env;
     raiseonerror := raiseonerror env;
     vocabulary_id := vocabulary_id env;
     re_rest := re_rest env |}.

(** A descriptor with an explicit description. *)
Definition described : gmap string pyval :=
  {["Name" := VStr "X"; "Description" := VStr "A study"]}.

(** A descriptor whose version is a number, and one whose version is the
    number zero. *)
Definition numeric_version : gmap string pyval :=
  {["Name" := VStr "X"; "BIDSVersion" := VInt 1]}.

Definition zero_version : gmap string pyval :=
  {["Name" := VStr "X"; "BIDSVersion" := VInt 0]}.

(** A descriptor that tries to set the reference URL itself. *)
Definition overriding : gmap string pyval :=
  {["Name" := VStr "X"; "conformsto" := VStr "http://example.org"]}.

(** A row without the participant_id column. *)
Definition no_id_row : Row := full_row [("subject", "sub-09"); ("age", "41")].

(** A row whose line had one field more than the header. *)
Definition long_row : Row :=
  {| named := [("participant_id", Some "sub-01"); ("age", Some "30")];
     extra := Some ["stray"] |}.

(** A row whose fields are all empty. *)
Definition blank_row : Row := full_row [("participant_id", ""); ("age", ""); ("sex", "")].

(** A row of a table whose first column is the age, on a line that stops
    before the identifier. *)
Definition no_id_value_row : Row :=
  {| named := [("age", Some "30"); ("participant_id", None)]; extra := None |}.

(** The pattern texts of a rule table, in order. *)
Abbreviation pattern_keys pp := ((λ rule : Rule, pattern rule.1) <$> pp).

(** The properties of sub-01 at the age of 31. *)
Definition sub01_props_31 : gmap string pyval :=
  <["bids:age(years)" := VStr "31"]> (<["bids:participant_id" := VStr "sub-01"]> ∅).

(** A table with two rows for sub-01. *)
Definition twice_sub01 : list Row :=
  [full_row [("participant_id", "sub-01"); ("age", "30")];
   full_row [("participant_id", "sub-01"); ("age", "31")]].

(** A file of sub-01 whose sidecar metadata names another participant. *)
Definition sidecar_id_layout : Layout :=
  file_layout "/ds/sub-01/anat/t1.nii" {["participant_id" := VStr "from-json"]}.

(** A row with the sex in capitals under a capitalized column name. *)
Definition capital_sex_row : Row :=
  full_row [("participant_id", "sub-01"); ("Sex", "Female")].

(** A descriptor with a name and the version entry [v]. *)
Definition version_descr (v : pyval) : gmap string pyval :=
  {["Name" := VStr "X"; "BIDSVersion" := v]}.

(** A text of whitespace only: a tab, a no-break space and a space. *)
Definition blank_text : string := String "009" (String "160" " ").

(** Three data files and a sidecar in strict mode; the query of the second
    data file fails. *)
Definition strict_tail_env : Env :=
  subjects_env [] ["a.nii"; "a.json"; "b.nii"; "c.nii"] true.

Definition b_fails : Layout := failing_layout ["/ds/b.nii"].

(** The same candidate given twice. *)
Definition repeated_env : Env := subjects_env [] ["a.nii"; "a.nii"] false.

(** A functional image whose metadata holds a number, a list and, at the
    top level, a mapping. *)
Definition scanner_meta : gmap string pyval :=
  {["RepetitionTime" := VInt 2;
    "SliceTiming" := VList [VInt 0; VInt 1];
    "Header" := VDict [("Rows", VInt 64)]]}.

Definition scanner_layout : Layout := file_layout "/ds/sub-01/func/bold.nii" scanner_meta.

(** A README whose text is wrapped in whitespace of several kinds: a
    no-break space and a next-line character before it, a tab, a no-break
    space and a space after it. *)
Definition padded_readme : string :=
  String "160" (String "133" "Hello world") +:+ blank_text.

(** ** Facts about strings and keys *)

Lemma append_gt_inj (s1 s2 : string) : s1 +:+ ">" = s2 +:+ ">" → s1 = s2.
Proof.
  revert s2. induction s1 as [|c s1 IH]; intros [|d s2]; simpl; intros H.
  - done.
  - injection H as _ H. by destruct s2.
  - injection H as _ H. by destruct s1.
  - injection H as -> H. f_equal. by apply IH.
Qed.

Ltac case_eqb :=
  repeat match goal with
         | |- context [String.eqb ?a ?b] => destruct (String.eqb_spec a b)
         end.

#[global] Instance stdkey_inj : Inj (=) (=) stdkey.
Proof.
  intros k1 k2. unfold stdkey, _key2stdkey. case_eqb; simpl; intros H;
    try congruence; try discriminate H.
  injection H as H. by apply append_gt_inj.
Qed.

Lemma stdkey_mapped (k std : string) : _key2stdkey k = Some std → stdkey k = std.
Proof. unfold stdkey. by intros ->. Qed.

Lemma stdkey_unmapped (k : string) :
  _key2stdkey k = None → stdkey k = "comment<" +:+ k +:+ ">".
Proof. unfold stdkey. by intros ->. Qed.

Lemma stdkey_fresh (k : string) : stdkey k ≠ "conformsto" ∧ stdkey k ≠ "@context".
Proof. unfold stdkey, _key2stdkey. case_eqb; simpl; split; discriminate. Qed.

Lemma stdkey_description (k : string) : stdkey k = "description" → k = "Description".
Proof. unfold stdkey, _key2stdkey. case_eqb; simpl; try discriminate; done. Qed.

(** ** Facts about dictionary comprehensions *)

Section comprehension.
Context (key : string → string) (keep : pyval → bool) `{!Inj (=) (=) key}.

Let step (acc : gmap string pyval) (kv : string * pyval) :=
  if keep kv.2 then <[key kv.1 := kv.2]> acc else acc.

Lemma comprehension_fold (l : list (string * pyval)) (acc : gmap string pyval) j v :
  NoDup l.*1 →
  foldl step acc l !! j = Some v ↔
    (∃ k, j = key k ∧ (k, v) ∈ l ∧ keep v = true)
    ∨ (acc !! j = Some v ∧ ∀ k v', (k, v') ∈ l → keep v' = true → key k ≠ j).
Proof.
  revert acc. induction l as [|[k0 v0] l IH]; intros acc Hnd; simpl.
  - split; [intros H; right; split; [done|]; intros ? ? Hin; by apply elem_of_nil in Hin
           | intros [(k & _ & Hin & _)|[H _]]; [by apply elem_of_nil in Hin | done]].
  - apply NoDup_cons in Hnd as [Hk0 Hnd]. rewrite (IH _ Hnd). clear IH.
    assert (Hfresh : ∀ v', (k0, v') ∉ l).
    { intros v' Hin. apply Hk0. apply list_elem_of_fmap. by exists (k0, v'). }
    unfold step; simpl. destruct (keep v0) eqn:Hkeep.
    + split.
      * intros [(k & -> & Hin & Hk)|[Hacc Hno]].
        { left. exists k. split; [done|]. split; [by apply elem_of_cons; right | done]. }
        destruct (decide (key k0 = j)) as [<-|Hne].
        { rewrite lookup_insert_eq in Hacc. injection Hacc as <-.
          left. exists k0. split; [done|]. split; [apply elem_of_cons; by left | done]. }
        rewrite lookup_insert_ne in Hacc by done.
        right. split; [done|]. intros k v' Hin Hk.
        apply elem_of_cons in Hin as [[= -> ->]|Hin]; [done | by eapply Hno].
      * intros [(k & -> & Hin & Hk)|[Hacc Hno]].
        { apply elem_of_cons in Hin as [[= -> ->]|Hin].
          - right. split; [by rewrite lookup_insert_eq|].
            intros k v' Hin Hk' Heq. apply Inj0 in Heq as ->. by eapply Hfresh.
          - left. by exists k. }
        right. split.
        { rewrite lookup_insert_ne; [done|]. eapply Hno; [apply elem_of_cons; by left | done]. }
        intros k v' Hin Hk'. eapply Hno; [apply elem_of_cons; by right | done].
    + split.
      * intros [(k & -> & Hin & Hk)|[Hacc Hno]].
        { left. exists k. split; [done|]. split; [by apply elem_of_cons; right | done]. }
        right. split; [done|]. intros k v' Hin Hk.
        apply elem_of_cons in Hin as [[= -> ->]|Hin]; [congruence | by eapply Hno].
      * intros [(k & -> & Hin & Hk)|[Hacc Hno]].
        { apply elem_of_cons in Hin as [[= -> ->]|Hin]; [congruence|]. left. by exists k. }
        right. split; [done|]. intros k v' Hin Hk'.
        eapply Hno; [apply elem_of_cons; by right | done].
Qed.

Lemma dict_comprehension_Some (d : gmap string pyval) j v :
  dict_comprehension key keep d !! j = Some v ↔
    ∃ k, j = key k ∧ d !! k = Some v ∧ keep v = true.
Proof.
  unfold dict_comprehension.
  etrans; [apply (comprehension_fold _ _ _ _ (NoDup_fst_map_to_list d))|].
  rewrite lookup_empty. split.
  - intros [(k & -> & Hin & Hk)|[? _]]; [|done].
    exists k. by rewrite <- elem_of_map_to_list.
  - intros (k & -> & Hin & Hk). left. exists k. by rewrite elem_of_map_to_list.
Qed.

Lemma dict_comprehension_lookup (d : gmap string pyval) k :
  dict_comprehension key keep d !! key k =
    match d !! k with
    | Some v => if keep v then Some v else None
    | None => None
    end.
Proof.
  apply option_eq. intros v. rewrite dict_comprehension_Some. split.
  - intros (k' & Heq & Hd & Hk). apply Inj0 in Heq as <-. by rewrite Hd, Hk.
  - destruct (d !! k) as [w|] eqn:Hd; [|done].
    destruct (keep w) eqn:Hk; [|done]. intros [= <-]. by exists k.
Qed.

Lemma dict_comprehension_None (d : gmap string pyval) j :
  (∀ k, j ≠ key k) → dict_comprehension key keep d !! j = None.
Proof.
  intros Hj. apply eq_None_not_Some. intros [v Hv].
  apply dict_comprehension_Some in Hv as (k & -> & _). by eapply Hj.
Qed.
End comprehension.

(** ** Facts about the dataset record *)

Lemma remapped_lookup (raw : gmap string pyval) (k : string) :
  remapped raw !! stdkey k = raw !! k.
Proof. rewrite dict_comprehension_lookup by apply _. by destruct (raw !! k). Qed.

Lemma remapped_description (raw : gmap string pyval) :
  remapped raw !! "description" = raw !! "Description".
Proof. apply (remapped_lookup raw "Description"). Qed.

Lemma remapped_version (raw : gmap string pyval) :
  remapped raw !! "comment<BIDSVersion>" = raw !! "BIDSVersion".
Proof. apply (remapped_lookup raw "BIDSVersion"). Qed.

(** How a dataset record is made, read off a successful call. *)
Lemma _get_dsmeta_Ok (env : Env) (bids : Layout) (meta : gmap string pyval) :
  _get_dsmeta env bids = Ok meta →
  ∃ raw (meta1 : gmap string pyval) ver,
    bids (opj (ds_path env) _dsdescr_fname) = Ok raw
    ∧ (∀ k, k ≠ "description" → meta1 !! k = remapped raw !! k)
    ∧ (if (negb (truthy (default VNone (raw !! "Description")))
           && path_exists env (opj (ds_path env) "README"))%bool
       then ∃ desc, open_r_encdetect env (opj (ds_path env) "README") = Ok desc
                    ∧ meta1 !! "description" = Some (VStr (strip desc))
       else meta1 !! "description" = raw !! "Description")
    ∧ py_strip (py_or (default (VStr "") (raw !! "BIDSVersion")) (VStr "")) = Ok ver
    ∧ meta !! "conformsto" = Some (VStr (bids_defurl ver))
    ∧ (∀ k, k ≠ "conformsto" → k ≠ "@context" → meta !! k = meta1 !! k).
Proof.
  unfold _get_dsmeta. intros H.
  destruct (bids (opj (ds_path env) _dsdescr_fname)) as [raw|e] eqn:Hraw; [|done].
  simpl in H. rewrite remapped_description in H.
  set (cond := (negb (truthy (default VNone (raw !! "Description")))
                && path_exists env (opj (ds_path env) "README"))%bool) in *.
  assert (∃ meta1 : gmap string pyval,
    (if cond then desc ← open_r_encdetect env (opj (ds_path env) "README");
                  Ok (<["description" := VStr (strip desc)]> (remapped raw))
     else Ok (remapped raw)) = Ok meta1
    ∧ (∀ k, k ≠ "description" → meta1 !! k = remapped raw !! k)
    ∧ (if cond
       then ∃ desc, open_r_encdetect env (opj (ds_path env) "README") = Ok desc
                    ∧ meta1 !! "description" = Some (VStr (strip desc))
       else meta1 !! "description" = raw !! "Description")) as (meta1 & Hm1 & Hother & Hdesc).
  { destruct cond.
    - destruct (open_r_encdetect env (opj (ds_path env) "README")) as [desc|e]; [|done].
      eexists. split; [done|]. split.
      + intros k Hk. by rewrite lookup_insert_ne.
      + exists desc. by rewrite lookup_insert_eq.
    - eexists. split; [done|]. split; [done|]. apply remapped_description. }
  rewrite Hm1 in H. simpl in H.
  rewrite (Hother "comment<BIDSVersion>") in H by done.
  rewrite remapped_version in H.
  destruct (py_strip _) as [ver|e] eqn:Hver; [|done]. simpl in H.
  injection H as <-. exists raw, meta1, ver.
  repeat split; try done.
  - rewrite lookup_insert_ne by done. by rewrite lookup_insert_eq.
  - intros k Hk1 Hk2. by rewrite !lookup_insert_ne.
Qed.

(** A dataset record is returned whenever the layout answers for the
    descriptor, the README can be read, and the version entry is absent,
    [None] or a string. *)
Lemma _get_dsmeta_returns (env : Env) (bids : Layout) (raw : gmap string pyval) :
  bids (opj (ds_path env) _dsdescr_fname) = Ok raw →
  (∃ desc, open_r_encdetect env (opj (ds_path env) "README") = Ok desc) →
  (raw !! "BIDSVersion" = None ∨ raw !! "BIDSVersion" = Some VNone
   ∨ ∃ s, raw !! "BIDSVersion" = Some (VStr s)) →
  ∃ meta, _get_dsmeta env bids = Ok meta.
Proof.
  intros Hraw [desc Hdesc] Hver. unfold _get_dsmeta. rewrite Hraw. simpl.
  rewrite Hdesc. simpl.
  destruct (_ && _)%bool; simpl.
  - rewrite lookup_insert_ne by done. rewrite remapped_version.
    destruct Hver as [->|[->|[s ->]]]; simpl; eauto.
    unfold py_or. destruct (truthy (VStr s)); simpl; eauto.
  - rewrite remapped_version.
    destruct Hver as [->|[->|[s ->]]]; simpl; eauto.
    unfold py_or. destruct (truthy (VStr s)); simpl; eauto.
Qed.

(** ** Facts about patterns *)

Lemma atom_of_ordinary (c : ascii) :
  re_special c = false → atom_of c = Some (AChar c) ∧ Ascii.eqb c "*" = false.
Proof.
  intros H. unfold atom_of. rewrite H.
  unfold re_special in H. simpl in H.
  repeat (apply orb_false_elim in H as [? H]).
  split; [|done].
  by destruct (Ascii.eqb c ".").
Qed.

Lemma parse_literal (pid : string) :
  literal pid = true →
  parse_items (pid +:+ "/.*") =
    Some (literal_items pid ++ [Item (AChar "/") false; Item AAny true]).
Proof.
  unfold literal, literal_items. induction pid as [|c pid IH]; [done|].
  simpl. intros [Hc Hpid]%andb_prop. apply negb_true_iff in Hc.
  destruct (atom_of_ordinary c Hc) as [-> _].
  specialize (IH Hpid).
  destruct pid as [|c' pid'].
  - done.
  - simpl in Hpid. apply andb_prop in Hpid as [Hc' _]. apply negb_true_iff in Hc'.
    destruct (atom_of_ordinary c' Hc') as [_ Hstar].
    change (String c' pid' +:+ "/.*") with (String c' (pid' +:+ "/.*")) in *.
    cbv iota beta. rewrite Hstar, IH. done.
Qed.

Lemma match_literal (pid f : string) :
  match_items (literal_items pid ++ [Item (AChar "/") false; Item AAny true]) f
  = startswith f (pid +:+ "/").
Proof.
  unfold literal_items. revert f. induction pid as [|c pid IH]; intros f.
  - destruct f as [|d f]; [done|]. simpl. by destruct f.
  - destruct f as [|d f]; [done|]. simpl. by rewrite IH.
Qed.

(** A pattern made from a literal identifier compiles, whatever [re] does
    outside the fragment, and matches exactly the paths that start with the
    identifier followed by [/]. *)
Lemma re_compile_literal (rest : string → option (string → bool)) (pid : string) :
  literal pid = true →
  ∃ rx, re_compile rest ("^" +:+ pid +:+ "/.*") = Ok rx
        ∧ pattern rx = "^" +:+ pid +:+ "/.*"
        ∧ ∀ f, rx_match rx f = startswith f (pid +:+ "/").
Proof.
  intros Hlit. unfold re_compile.
  change (fragment ("^" +:+ pid +:+ "/.*")) with (parse_items (pid +:+ "/.*")).
  rewrite (parse_literal _ Hlit). eexists. split; [done|]. split; [done|].
  intros f. apply match_literal.
Qed.

Lemma re_compile_pattern (rest : string → option (string → bool)) (pat : string) (rx : Pattern) :
  re_compile rest pat = Ok rx → pattern rx = pat.
Proof.
  unfold re_compile. destruct (fragment pat); [by intros [= <-]|].
  destruct (rest pat); [by intros [= <-] | done].
Qed.

(** ** Facts about the overlay *)

Section overlay.
Implicit Types (pp : list Rule) (md : gmap string pyval) (f k : string).

Lemma overlay_nil f md : overlay [] f md = md.
Proof. done. Qed.

Lemma overlay_cons rule pp f md :
  overlay (rule :: pp) f md
  = overlay pp f (if rx_match rule.1 f then rule.2 ∪ md else md).
Proof. done. Qed.

Lemma overlay_app pp1 pp2 f md :
  overlay (pp1 ++ pp2) f md = overlay pp2 f (overlay pp1 f md).
Proof. unfold overlay. by rewrite foldl_app. Qed.

(** A key that no matching rule defines is left as it was. *)
Lemma overlay_untouched pp f md k :
  (∀ rule, rule ∈ pp → rx_match rule.1 f = true → rule.2 !! k = None) →
  overlay pp f md !! k = md !! k.
Proof.
  revert md. induction pp as [|rule pp IH]; intros md Hno; [done|].
  rewrite overlay_cons, IH.
  - destruct (rx_match rule.1 f) eqn:Hm; [|done].
    apply lookup_union_r. apply Hno; [apply elem_of_cons; by left | done].
  - intros rule' Hin. apply Hno. apply elem_of_cons; by right.
Qed.

(** A key of the record stays a key of the record. *)
Lemma overlay_keeps_keys pp f md k :
  is_Some (md !! k) → is_Some (overlay pp f md !! k).
Proof.
  revert md. induction pp as [|rule pp IH]; intros md Hk; [done|].
  rewrite overlay_cons. apply IH.
  destruct (rx_match rule.1 f); [|done].
  apply lookup_union_is_Some. by right.
Qed.

(** Every key of a matching rule is a key of the record. *)
Lemma overlay_adds_keys pp f md rule k :
  rule ∈ pp → rx_match rule.1 f = true → is_Some (rule.2 !! k) →
  is_Some (overlay pp f md !! k).
Proof.
  revert md. induction pp as [|rule' pp IH]; intros md Hin Hm Hk.
  - by apply elem_of_nil in Hin.
  - rewrite overlay_cons. apply elem_of_cons in Hin as [<-|Hin].
    + apply overlay_keeps_keys. rewrite Hm. apply lookup_union_is_Some. by left.
    + by apply IH.
Qed.

(** The value of a key is that of the last matching rule that defines it. *)
Lemma overlay_last_wins pp1 rule pp2 f md k v :
  rx_match rule.1 f = true → rule.2 !! k = Some v →
  (∀ rule', rule' ∈ pp2 → rx_match rule'.1 f = true → rule'.2 !! k = None) →
  overlay (pp1 ++ rule :: pp2) f md !! k = Some v.
Proof.
  intros Hm Hk Hno. rewrite overlay_app, overlay_cons, Hm.
  rewrite overlay_untouched by done. by apply lookup_union_Some_l.
Qed.

(** A property of the values of the record and of the rules holds of the
    values of the overlaid record. *)
Lemma overlay_values (P : pyval → Prop) pp f md :
  (∀ k v, md !! k = Some v → P v) →
  (∀ rule k v, rule ∈ pp → rule.2 !! k = Some v → P v) →
  ∀ k v, overlay pp f md !! k = Some v → P v.
Proof.
  revert md. induction pp as [|rule pp IH]; intros md Hmd Hpp k v; [apply Hmd|].
  rewrite overlay_cons. apply IH.
  - destruct (rx_match rule.1 f); [|done].
    intros k' v' [H|[_ H]]%lookup_union_Some_raw; [|by eapply Hmd].
    eapply Hpp; [apply elem_of_cons; by left | done].
  - intros rule' k' v' Hin. apply Hpp. apply elem_of_cons; by right.
Qed.
End overlay.

(** Where an entry of an overlaid record comes from. *)
Lemma overlay_origin (pp : list Rule) (f : string) (md : gmap string pyval)
    (j : string) (v : pyval) :
  overlay pp f md !! j = Some v →
  (∃ rule, rule ∈ pp ∧ rx_match rule.1 f = true ∧ rule.2 !! j = Some v)
  ∨ md !! j = Some v.
Proof.
  revert md. induction pp as [|rule pp IH]; intros md; [by right|].
  rewrite overlay_cons. intros [(rule' & Hin & Hm & Hj)|Hmd]%IH.
  - left. exists rule'. split; [apply elem_of_cons; by right | done].
  - destruct (rx_match rule.1 f) eqn:Hm; [|by right].
    apply lookup_union_Some_raw in Hmd as [Hj|[_ Hj]]; [|by right].
    left. exists rule. split; [apply elem_of_cons; by left | done].
Qed.

(** A key that a matching rule defines has the value of a matching rule. *)
Lemma overlay_rule_value (pp : list Rule) (f : string) (md : gmap string pyval)
    (rule : Rule) (j : string) :
  rule ∈ pp → rx_match rule.1 f = true → is_Some (rule.2 !! j) →
  ∃ rule' v, rule' ∈ pp ∧ rx_match rule'.1 f = true
             ∧ rule'.2 !! j = Some v ∧ overlay pp f md !! j = Some v.
Proof.
  intros Hin Hm Hj.
  destruct (overlay_adds_keys pp f md rule j Hin Hm Hj) as [v Hv].
  destruct (overlay_origin _ _ _ _ _ Hv) as [(rule' & Hin' & Hm' & Hj')|Hmd].
  - by exists rule', v.
  - revert md v Hv Hmd. induction pp as [|rule0 pp IH]; intros md v Hv Hmd.
    + by apply elem_of_nil in Hin.
    + rewrite overlay_cons in Hv.
      apply elem_of_cons in Hin as [->|Hin].
      * rewrite Hm in Hv. destruct Hj as [v0 Hv0].
        destruct (overlay_origin _ _ _ _ _ Hv) as [(rule' & Hin' & Hm' & Hj')|Hu].
        -- exists rule', v. split; [apply elem_of_cons; by right|].
           split; [done|]. split; [done|]. by rewrite overlay_cons, Hm.
        -- exists rule0, v. split; [apply elem_of_cons; by left|].
           split; [done|]. rewrite (lookup_union_Some_l _ _ _ _ Hv0) in Hu.
           split; [congruence|]. by rewrite overlay_cons, Hm.
      * destruct (overlay_origin _ _ _ _ _ Hv) as [(rule' & Hin' & Hm' & Hj')|Hu].
        -- exists rule', v. split; [apply elem_of_cons; by right|].
           split; [done|]. split; [done|]. by rewrite overlay_cons.
        -- destruct (IH Hin _ _ Hv Hu) as (rule' & w & Hin' & Hm' & Hj' & Hw).
           exists rule', w. split; [apply elem_of_cons; by right|].
           split; [done|]. split; [done|]. by rewrite overlay_cons.
Qed.

(** ** Facts about the loop over the candidate files *)

Section cnmeta_loop.
Context (env : Env) (bids : Layout) (pp : list Rule).

Lemma cnmeta_loop_cons f fs :
  cnmeta_loop env bids pp (f :: fs) =
    if endswith f ".json" then cnmeta_loop env bids pp fs
    else match base_record env bids f with
         | Raise e => gen_raise e
         | Ok md => gen_yield (f, overlay pp f md) (cnmeta_loop env bids pp fs)
         end.
Proof. done. Qed.

Lemma base_record_Raise f e :
  base_record env bids f = Raise e →
  raiseonerror env = true ∧ bids (opj (ds_path env) f) = Raise e.
Proof.
  unfold base_record. destruct (bids _); [done|].
  destruct (raiseonerror env); [by intros [= ->] | done].
Qed.

(** The paths yielded are the candidates that are not sidecar files, in
    order, up to the end of the list or to the first failure that strict
    mode lets through. *)
Lemma cnmeta_loop_paths fs :
  ∃ rest,
    List.filter not_json fs = (yielded (cnmeta_loop env bids pp fs)).*1 ++ rest
    ∧ match ending (cnmeta_loop env bids pp fs) with
      | None => rest = []
      | Some e => raiseonerror env = true
                  ∧ ∃ f rest', rest = f :: rest' ∧ bids (opj (ds_path env) f) = Raise e
      end.
Proof.
  induction fs as [|f fs (rest & Hp & He)].
  - by exists [].
  - rewrite cnmeta_loop_cons. simpl. destruct (endswith f ".json"); simpl.
    + by exists rest.
    + destruct (base_record env bids f) as [md|e] eqn:Hb; simpl.
      * exists rest. by rewrite Hp.
      * apply base_record_Raise in Hb as [Hs Hb]. eauto 10.
Qed.

(** Every record yielded is the overlay of the base record of its file. *)
Lemma cnmeta_loop_record fs f md :
  (f, md) ∈ yielded (cnmeta_loop env bids pp fs) →
  f ∈ fs ∧ endswith f ".json" = false
  ∧ ∃ base, base_record env bids f = Ok base ∧ md = overlay pp f base.
Proof.
  induction fs as [|g fs IH]; simpl.
  - intros H. by apply elem_of_nil in H.
  - destruct (endswith g ".json") eqn:Hj.
    + intros (? & ? & ?)%IH. split; [apply elem_of_cons; by right | done].
    + destruct (base_record env bids g) as [base|e] eqn:Hb; simpl.
      * intros [[= -> ->]|Hin]%elem_of_cons.
        { split; [apply elem_of_cons; by left|]. split; [done|]. by exists base. }
        apply IH in Hin as (? & ? & ?). split; [apply elem_of_cons; by right | done].
      * intros H. by apply elem_of_nil in H.
Qed.

(** The loop over a list cut in two. *)
Lemma cnmeta_loop_app fs1 fs2 :
  cnmeta_loop env bids pp (fs1 ++ fs2) =
    match ending (cnmeta_loop env bids pp fs1) with
    | None => Gen (yielded (cnmeta_loop env bids pp fs1)
                   ++ yielded (cnmeta_loop env bids pp fs2))
                  (ending (cnmeta_loop env bids pp fs2))
    | Some e => cnmeta_loop env bids pp fs1
    end.
Proof.
  induction fs1 as [|f fs1 IH].
  - simpl. by destruct (cnmeta_loop env bids pp fs2).
  - simpl. destruct (endswith f ".json"); [done|].
    destruct (base_record env bids f) as [md|e]; [|done].
    rewrite IH. simpl. by destruct (ending (cnmeta_loop env bids pp fs1)).
Qed.

(** Without strict mode the loop never raises. *)
Lemma cnmeta_loop_lenient fs :
  raiseonerror env = false → ending (cnmeta_loop env bids pp fs) = None.
Proof.
  intros Hl. destruct (cnmeta_loop_paths fs) as (rest & _ & He).
  destruct (ending _); [|done]. destruct He as [He _]. congruence.
Qed.

(** When every query of a file that is not a sidecar succeeds, the loop
    does not raise. *)
Lemma cnmeta_loop_all_ok fs :
  (∀ f, f ∈ fs → endswith f ".json" = false →
        ∃ raw, bids (opj (ds_path env) f) = Ok raw) →
  ending (cnmeta_loop env bids pp fs) = None.
Proof.
  induction fs as [|f fs IH]; intros Hok; [done|]. simpl.
  assert (ending (cnmeta_loop env bids pp fs) = None) as Hfs.
  { apply IH. intros g Hg. apply Hok. apply elem_of_cons; by right. }
  destruct (endswith f ".json") eqn:Hj; [done|].
  destruct (Hok f) as [raw Hraw]; [apply elem_of_cons; by left | done |].
  unfold base_record. by rewrite Hraw.
Qed.
End cnmeta_loop.

(** ** Facts about the rows of the subject table *)

Section rows.
Context (r : Row).
Implicit Types (props : gmap string pyval) (k : string).

Lemma columns_raise e ks : columns_from r (Raise e) ks = Raise e.
Proof. by induction ks. Qed.

(** A property that every turn of the loop keeps, holds at the end. *)
Lemma columns_invariant (P : gmap string pyval → Prop) ks props0 props :
  P props0 →
  (∀ p k p', k ∈ ks → P p → column r p k = Ok p' → P p') →
  columns_from r (Ok props0) ks = Ok props → P props.
Proof.
  revert props0. induction ks as [|k ks IH]; intros props0 H0 Hstep; simpl.
  - by intros [= <-].
  - destruct (column r props0 k) as [p1|e] eqn:Hc; simpl.
    + apply IH.
      * eapply Hstep; [apply elem_of_cons; by left | done | done].
      * intros p k' p' Hin. apply Hstep. apply elem_of_cons; by right.
    + by rewrite columns_raise.
Qed.


(** What one turn does to the properties. *)
Lemma column_Ok props k props' :
  column r props k = Ok props' →
  props' = props
  ∨ ∃ s, s ≠ "" ∧ props' = <[column_key k := VStr s]> props
         ∧ (is_sex_key (column_key k) = false → row_item (named r) k = Some s).
Proof.
  unfold column. destruct (is_sex_key (column_key k)); simpl.
  - destruct (row_item (named r) k) as [s|]; simpl; [|done].
    destruct (String.eqb_spec (default (lower s) (sex_label_map (lower s))) "");
      simpl; intros [= <-]; [by left|]. right. eexists. by split.
  - destruct (row_item (named r) k) as [s|]; simpl; [|intros [= <-]; by left].
    destruct (String.eqb_spec s ""); simpl; intros [= <-]; [by left|].
    right. exists s. by split.
Qed.

Lemma row_props_Ok props :
  row_props r = Ok props →
  columns_from r (Ok ∅) (named r).*1 = Ok props ∧ extra r = None.
Proof.
  unfold row_props.
  destruct (columns_from r (Ok ∅) (named r).*1) as [p|e]; simpl; [|done].
  destruct (extra r); [done|]. by intros [= <-].
Qed.

(** The properties of a row are non-empty strings. *)
Lemma row_props_values props k v :
  row_props r = Ok props → props !! k = Some v → ∃ s, v = VStr s ∧ s ≠ "".
Proof.
  intros [Hc _]%row_props_Ok. revert k v.
  eapply (columns_invariant
            (λ p, ∀ k v, p !! k = Some v → ∃ s, v = VStr s ∧ s ≠ "")); [| |done].
  - intros k v. by rewrite lookup_empty.
  - intros p k p' _ Hp [->|(s & Hs & -> & _)]%column_Ok; [done|].
    intros k' v. destruct (decide (column_key k = k')) as [<-|Hne].
    + rewrite lookup_insert_eq. intros [= <-]. eauto.
    + rewrite lookup_insert_ne by done. apply Hp.
Qed.
End rows.




(** ** Facts about the rule table *)

Section rules.
Context (rest : string → option (string → bool)).

(** Every rule yielded comes from a row of the table. *)
Lemma participant_rules_from_row rs tail rx props :
  (rx, props) ∈ yielded (participant_rules rest rs tail) →
  ∃ r, r ∈ rs ∧ row_props r = Ok props
       ∧ re_compile rest (rule_pattern r) = Ok rx.
Proof.
  induction rs as [|r rs IH]; simpl.
  - intros H. by apply elem_of_nil in H.
  - assert (Hrec : (rx, props) ∈ yielded (participant_rules rest rs tail) →
                   ∃ r0, r0 ∈ r :: rs ∧ row_props r0 = Ok props
                         ∧ re_compile rest (rule_pattern r0) = Ok rx).
    { intros (r0 & ? & ?)%IH. exists r0. split; [apply elem_of_cons; by right | done]. }
    destruct (row_has r "participant_id"); simpl;
      [|intros H; by apply elem_of_nil in H].
    destruct (row_props r) as [p|e] eqn:Hp; simpl;
      [|intros H; by apply elem_of_nil in H].
    destruct (Nat.eqb (size p) 0); [done|].
    destruct (re_compile rest (rule_pattern r)) as [rx0|e] eqn:Hrx; simpl;
      [|intros H; by apply elem_of_nil in H].
    intros [[= -> ->]|Hin]%elem_of_cons; [|by apply Hrec].
    exists r. split; [apply elem_of_cons; by left | done].
Qed.

Lemma setitem_elem {V} (d : list (Pattern * V)) (rx : Pattern) (v : V) rx' v' :
  (rx', v') ∈ setitem d rx v →
  (rx', v') ∈ d ∨ (v' = v ∧ pattern rx' = pattern rx
                   ∧ (rx' = rx ∨ ∃ w, (rx', w) ∈ d)).
Proof.
  induction d as [|[rx0 v0] d IH]; simpl.
  - intros [= -> ->]%list_elem_of_singleton. right. eauto.
  - destruct (String.eqb_spec (pattern rx0) (pattern rx)) as [Heq|Hne].
    + intros [[= -> ->]|Hin]%elem_of_cons.
      * right. split; [done|]. split; [done|]. right. exists v0.
        apply elem_of_cons; by left.
      * left. apply elem_of_cons; by right.
    + intros [[= -> ->]|Hin]%elem_of_cons.
      * left. apply elem_of_cons; by left.
      * apply IH in Hin as [Hin|(-> & Hpat & [->|[w Hw]])].
        -- left. apply elem_of_cons; by right.
        -- right. eauto.
        -- right. split; [done|]. split; [done|]. right. exists w.
           apply elem_of_cons; by right.
Qed.

(** Every rule of the table is the compiled pattern and the properties
    of a row. *)
Lemma rule_table_from_rows (rs : list Row) (ys : list Rule) rx props :
  (∀ rx props, (rx, props) ∈ ys →
     ∃ r, r ∈ rs ∧ row_props r = Ok props ∧ re_compile rest (rule_pattern r) = Ok rx) →
  (rx, props) ∈ foldl (λ pp rule, setitem pp rule.1 rule.2) [] ys →
  ∃ r, r ∈ rs ∧ row_props r = Ok props ∧ re_compile rest (rule_pattern r) = Ok rx.
Proof.
  intros Hys.
  assert (Hgen : ∀ (acc : list Rule),
    (∀ rx props, (rx, props) ∈ acc →
       ∃ r, r ∈ rs ∧ row_props r = Ok props ∧ re_compile rest (rule_pattern r) = Ok rx) →
    (rx, props) ∈ foldl (λ pp rule, setitem pp rule.1 rule.2) acc ys →
    ∃ r, r ∈ rs ∧ row_props r = Ok props ∧ re_compile rest (rule_pattern r) = Ok rx).
  { revert Hys. induction ys as [|[rx0 p0] ys IH]; intros Hys acc Hacc; simpl.
    - apply Hacc.
    - apply IH.
      + intros rx1 p1 Hin. apply Hys. apply elem_of_cons; by right.
      + intros rx1 p1 [Hin|(-> & Hpat & Hkey)]%setitem_elem; [by apply Hacc|].
        destruct (Hys rx0 p0) as (r0 & Hr0 & Hp0 & Hc0); [apply elem_of_cons; by left|].
        exists r0. split; [done|]. split; [done|].
        destruct Hkey as [->|[w Hw]]; [done|].
        destruct (Hacc _ _ Hw) as (r1 & _ & _ & Hc1).
        rewrite <- (re_compile_pattern _ _ _ Hc0), <- Hpat.
        by rewrite (re_compile_pattern _ _ _ Hc1). }
  apply Hgen. intros ? ? H. by apply elem_of_nil in H.
Qed.
End rules.

(** Every rule of [path_props] is the compiled pattern and the properties
    of a row of the subject table. *)
Lemma path_props_from_rows (env : Env) (rx : Pattern) (props : gmap string pyval) :
  (rx, props) ∈ path_props env →
  ∃ r, r ∈ rows (DictReader env (opj (ds_path env) "participants.tsv"))
       ∧ row_props r = Ok props
       ∧ re_compile (re_rest env) (rule_pattern r) = Ok rx.
Proof.
  unfold path_props. destruct (path_exists env _).
  - apply rule_table_from_rows. intros rx' props'. apply participant_rules_from_row.
  - intros H. by apply elem_of_nil in H.
Qed.

(** ** Facts about stripping *)

Lemma append_nil (b : string) : "" +:+ b = b.
Proof. reflexivity. Qed.

Lemma append_cons (x : ascii) (a b : string) : String x a +:+ b = String x (a +:+ b).
Proof. reflexivity. Qed.

Ltac simpl_append := rewrite ?append_cons, ?append_nil; simpl.

Lemma append_assoc (a b c : string) : (a +:+ b) +:+ c = a +:+ b +:+ c.
Proof. induction a as [|x a IH]; simpl_append; [done|]. by rewrite IH. Qed.

Lemma append_empty_r (a : string) : a +:+ "" = a.
Proof. induction a as [|x a IH]; simpl_append; [done|]. by rewrite IH. Qed.

Lemma whitespace_only_app (a b : string) :
  whitespace_only (a +:+ b) = (whitespace_only a && whitespace_only b)%bool.
Proof.
  induction a as [|x a IH]; simpl_append; [done|]. rewrite IH. by rewrite andb_assoc.
Qed.

Lemma rstrip_whitespace (s : string) : whitespace_only s = true → rstrip s = "".
Proof.
  induction s as [|c s IH]; simpl; [done|].
  intros [Hc Hs]%andb_prop. by rewrite (IH Hs), Hc.
Qed.

Lemma rstrip_app_whitespace (x r : string) :
  whitespace_only r = true → rstrip (x +:+ r) = rstrip x.
Proof.
  intros Hr. induction x as [|c x IH]; simpl_append.
  - by apply rstrip_whitespace.
  - by rewrite IH.
Qed.

Lemma rstrip_ends (t : string) (c : ascii) :
  isspace c = false → rstrip (t +:+ String c "") = t +:+ String c "".
Proof.
  intros Hc. induction t as [|d t IH]; simpl_append.
  - by rewrite Hc.
  - rewrite IH. destruct t; by simpl_append.
Qed.

Lemma lstrip_app_whitespace (l t : string) :
  whitespace_only l = true → lstrip (l +:+ t) = lstrip t.
Proof.
  induction l as [|c l IH]; simpl_append; [done|].
  intros [Hc Hl]%andb_prop. rewrite Hc. by apply IH.
Qed.

Lemma rstrip_decomp (s : string) :
  ∃ r, s = rstrip s +:+ r ∧ whitespace_only r = true
       ∧ (rstrip s = "" ∨ ∃ t c, rstrip s = t +:+ String c "" ∧ isspace c = false).
Proof.
  induction s as [|c s (r & Hs & Hr & Hend)]; simpl.
  - exists "". by eauto.
  - destruct (rstrip s) as [|d u] eqn:Hu.
    + rewrite append_nil in Hs. subst r. destruct (isspace c) eqn:Hc.
      * exists (String c s). simpl_append. rewrite Hc, Hr. by eauto.
      * exists s. split; [done|]. split; [done|]. right. by exists "", c.
    + exists r. split; [rewrite append_cons; by rewrite <- Hs|]. split; [done|]. right.
      destruct Hend as [?|(t & c0 & Ht & Hc0)]; [done|].
      exists (String c t), c0. rewrite append_cons. by rewrite Ht.
Qed.

Lemma lstrip_decomp (s : string) :
  ∃ l, s = l +:+ lstrip s ∧ whitespace_only l = true
       ∧ (lstrip s = "" ∨ ∃ c t, lstrip s = String c t ∧ isspace c = false).
Proof.
  induction s as [|c s (l & Hs & Hl & Hstart)]; simpl.
  - exists "". by eauto.
  - destruct (isspace c) eqn:Hc.
    + exists (String c l). simpl_append. rewrite Hc, Hl, <- Hs. by eauto.
    + exists "". split; [done|]. split; [done|]. right. by exists c, s.
Qed.

Lemma lstrip_keeps_end (x t : string) (c : ascii) :
  x = t +:+ String c "" → isspace c = false →
  ∃ t', lstrip x = t' +:+ String c "".
Proof.
  intros -> Hc. induction t as [|d t (t' & IH)]; simpl_append.
  - rewrite Hc. by exists "".
  - destruct (isspace d); [by exists t'|]. by exists (String d t).
Qed.

(** [strip] strips the surrounding whitespace. *)
Lemma strip_stripped (s : string) : stripped s (strip s).
Proof.
  unfold stripped, strip.
  destruct (rstrip_decomp s) as (r & Hs & Hr & Hend).
  destruct (lstrip_decomp (rstrip s)) as (l & Hl & Hwl & Hstart).
  exists l, r. split; [|split; [done|split; [done|]]].
  - rewrite <- append_assoc, <- Hl. exact Hs.
  - destruct Hstart as [->|(c & t & Ht & Hc)]; [by left|]. right.
    split; [by eauto|].
    destruct Hend as [Hempty|(t0 & c0 & Ht0 & Hc0)].
    + rewrite Hempty in Ht. done.
    + destruct (lstrip_keeps_end _ _ _ Ht0 Hc0) as (t' & Ht'). by eauto.
Qed.

(** Nothing else is the text with its surrounding whitespace stripped. *)
Lemma stripped_unique (s t : string) : stripped s t → strip s = t.
Proof.
  intros (l & r & -> & Hl & Hr & Ht). unfold strip.
  rewrite <- append_assoc, (rstrip_app_whitespace _ _ Hr).
  destruct Ht as [->|[(c & t1 & Ht1 & Hc) (t2 & c2 & Ht2 & Hc2)]].
  - rewrite append_empty_r, (rstrip_whitespace _ Hl). done.
  - rewrite Ht2 at 1. rewrite <- append_assoc, (rstrip_ends _ _ Hc2).
    rewrite append_assoc, <- Ht2, (lstrip_app_whitespace _ _ Hl).
    rewrite Ht1. simpl. by rewrite Hc.
Qed.

(** The stripped text is empty exactly for a text of whitespace only. *)
Lemma strip_empty (s : string) : strip s = "" ↔ whitespace_only s = true.
Proof.
  split.
  - intros Hs. destruct (strip_stripped s) as (l & r & Heq & Hl & Hr & _).
    rewrite Hs in Heq. rewrite append_nil in Heq.
    rewrite Heq, whitespace_only_app, Hl, Hr. done.
  - intros Hs. unfold strip. by rewrite (rstrip_whitespace _ Hs).
Qed.

Lemma strip_empty_eqb (s : string) : String.eqb (strip s) "" = whitespace_only s.
Proof.
  destruct (String.eqb_spec (strip s) "") as [H|H].
  - symmetry. by apply strip_empty.
  - destruct (whitespace_only s) eqn:Hw; [|done]. by apply strip_empty in Hw.
Qed.

(** ** When a dataset record is returned *)

(** A dataset record is returned whenever the layout answers for the
    descriptor, the README is not needed or can be read, and the version
    entry is absent, [None] or a string. *)
Lemma _get_dsmeta_total (env : Env) (bids : Layout) (raw : gmap string pyval) :
  bids (opj (ds_path env) _dsdescr_fname) = Ok raw →
  (truthy (default VNone (raw !! "Description")) = true
   ∨ path_exists env (opj (ds_path env) "README") = false
   ∨ ∃ text, open_r_encdetect env (opj (ds_path env) "README") = Ok text) →
  (raw !! "BIDSVersion" = None ∨ raw !! "BIDSVersion" = Some VNone
   ∨ ∃ s, raw !! "BIDSVersion" = Some (VStr s)) →
  ∃ meta, _get_dsmeta env bids = Ok meta.
Proof.
  intros Hraw Hreadme Hver. unfold _get_dsmeta. rewrite Hraw. simpl.
  rewrite remapped_description.
  assert (Hstrip : ∃ ver, py_strip (py_or (default (VStr "") (raw !! "BIDSVersion"))
                                      (VStr "")) = Ok ver).
  { destruct Hver as [->|[->|[s ->]]]; simpl; eauto.
    unfold py_or. destruct (truthy (VStr s)); simpl; eauto. }
  destruct Hstrip as [ver Hstrip].
  destruct (negb (truthy (default VNone (raw !! "Description")))
            && path_exists env (opj (ds_path env) "README"))%bool eqn:Hcond; simpl.
  - apply andb_prop in Hcond as [Ht Hex]. apply negb_true_iff in Ht.
    destruct Hreadme as [?|[?|[text ->]]]; [congruence..|]. simpl.
    rewrite lookup_insert_ne by done. rewrite remapped_version, Hstrip. simpl. eauto.
  - rewrite remapped_version, Hstrip. simpl. eauto.
Qed.

(** ** The loop in strict mode *)

(** In strict mode the loop ends at the first candidate, not a sidecar,
    whose query raises: the candidates before it are yielded, the failing
    one and those after it are not, and the error is the loop's ending. *)
Lemma cnmeta_loop_abort (env : Env) (bids : Layout) (pp : list Rule)
    (pre post : list string) (f : string) (e : exn) :
  raiseonerror env = true →
  endswith f ".json" = false →
  bids (opj (ds_path env) f) = Raise e →
  (∀ g, g ∈ pre → endswith g ".json" = false →
        ∃ raw, bids (opj (ds_path env) g) = Ok raw) →
  (yielded (cnmeta_loop env bids pp (pre ++ f :: post))).*1 = List.filter not_json pre
  ∧ ending (cnmeta_loop env bids pp (pre ++ f :: post)) = Some e.
Proof.
  intros Hs Hj Hf Hpre. rewrite cnmeta_loop_app.
  pose proof (cnmeta_loop_all_ok env bids pp pre Hpre) as Hend.
  destruct (cnmeta_loop_paths env bids pp pre) as (rest & Hp & He).
  rewrite Hend in He. subst rest. rewrite app_nil_r in Hp. rewrite Hend.
  rewrite cnmeta_loop_cons, Hj. unfold base_record. rewrite Hf, Hs. simpl.
  by rewrite app_nil_r, Hp.
Qed.

(** * The presence check *)

(** C1. When [dataset_description.json] does not exist under the dataset
    root, [get_metadata] returns the empty dataset record and the empty
    sequence of file records, whatever the [content] flag is. *)
Theorem get_metadata_no_descriptor (env : Env) (dataset : string) (content : bool) :
  path_exists env (opj (ds_path env) _dsdescr_fname) = false →
  get_metadata env dataset content = Ok (∅, Gen [] None).
Proof. intros H. unfold get_metadata. by rewrite H. Qed.

Lemma get_metadata_no_descriptor_witness :
  path_exists bare_env (opj (ds_path bare_env) _dsdescr_fname) = false
  ∧ get_metadata bare_env "/ds" true = Ok (∅, Gen [] None)
  ∧ get_metadata bare_env "/ds" false = Ok (∅, Gen [] None).
Proof.
  split; [reflexivity|].
  split; apply get_metadata_no_descriptor; reflexivity.
Defined.

(** * The dataset record *)

(** C5. Every key of the descriptor metadata goes through the table
    Name→name, License→license, Authors→author, ReferencesAndLinks→citation,
    Funding→fundedby, Description→description, and a key that is not in the
    table is stored as comment<Key> with its value unchanged.  A key of the
    table keeps its value too, except for a falsy Description that a README
    replaces.  In particular Name="X" and Unknown="Y" give name="X" and
    comment<Unknown>="Y". *)
Theorem dsmeta_key_remap (env : Env) (bids : Layout) (raw meta : gmap string pyval) :
  bids (opj (ds_path env) _dsdescr_fname) = Ok raw →
  _get_dsmeta env bids = Ok meta →
  (_key2stdkey "Name" = Some "name"
   ∧ _key2stdkey "License" = Some "license"
   ∧ _key2stdkey "Authors" = Some "author"
   ∧ _key2stdkey "ReferencesAndLinks" = Some "citation"
   ∧ _key2stdkey "Funding" = Some "fundedby"
   ∧ _key2stdkey "Description" = Some "description"
   ∧ ∀ k, k ∉ ["Name"; "License"; "Authors"; "ReferencesAndLinks"; "Funding"; "Description"] →
          _key2stdkey k = None)
  ∧ (∀ k v, raw !! k = Some v →
       match _key2stdkey k with
       | None => meta !! ("comment<" +:+ k +:+ ">") = Some v
       | Some std =>
           if (String.eqb std "description" && negb (truthy v)
               && path_exists env (opj (ds_path env) "README"))%bool
           then is_Some (meta !! std)
           else meta !! std = Some v
       end)
  ∧ (raw !! "Name" = Some (VStr "X") → raw !! "Unknown" = Some (VStr "Y") →
     meta !! "name" = Some (VStr "X") ∧ meta !! "comment<Unknown>" = Some (VStr "Y")).
Proof.
  intros Hraw Hmeta.
  destruct (_get_dsmeta_Ok _ _ _ Hmeta) as (raw' & meta1 & ver & Hraw' & Hother & Hdesc & _ & _ & Hkeep).
  rewrite Hraw in Hraw'. injection Hraw' as <-.
  assert (Hgen : ∀ k v, raw !! k = Some v →
            if (String.eqb (stdkey k) "description" && negb (truthy v)
                && path_exists env (opj (ds_path env) "README"))%bool
            then is_Some (meta !! stdkey k)
            else meta !! stdkey k = Some v).
  { intros k v Hk. destruct (stdkey_fresh k) as [Hc1 Hc2].
    rewrite (Hkeep _ Hc1 Hc2).
    destruct (String.eqb_spec (stdkey k) "description") as [Heq|Hne]; simpl.
    - pose proof (stdkey_description _ Heq) as ->. rewrite Heq.
      rewrite Hk in Hdesc. simpl in Hdesc.
      destruct (negb (truthy v) && _)%bool.
      + destruct Hdesc as (desc & _ & ->). eauto.
      + done.
    - by rewrite (Hother _ Hne), remapped_lookup. }
  split; [|split].
  - repeat (split; [reflexivity|]). intros k Hk. unfold _key2stdkey.
    case_eqb; subst; try done; exfalso; apply Hk; set_solver.
  - intros k v Hk. specialize (Hgen k v Hk).
    destruct (_key2stdkey k) as [std|] eqn:Hstd.
    + by rewrite (stdkey_mapped _ _ Hstd) in Hgen.
    + by rewrite (stdkey_unmapped _ Hstd) in Hgen.
  - intros HN HU. split; [apply (Hgen _ _ HN) | apply (Hgen _ _ HU)].
Qed.

Lemma dsmeta_key_remap_witness :
  ∃ meta,
    example_layout {["Name" := VStr "X"; "Unknown" := VStr "Y"]}
      (opj (ds_path plain_env) _dsdescr_fname)
      = Ok {["Name" := VStr "X"; "Unknown" := VStr "Y"]}
    ∧ _get_dsmeta plain_env (example_layout {["Name" := VStr "X"; "Unknown" := VStr "Y"]})
      = Ok meta
    ∧ meta !! "name" = Some (VStr "X")
    ∧ meta !! "comment<Unknown>" = Some (VStr "Y").
Proof.
  destruct (_get_dsmeta_returns plain_env
              (example_layout {["Name" := VStr "X"; "Unknown" := VStr "Y"]})
              {["Name" := VStr "X"; "Unknown" := VStr "Y"]})
    as [meta Hmeta]; [reflexivity | by eexists | by left |].
  exists meta. split; [reflexivity|]. split; [exact Hmeta|].
  exact (proj2 (proj2 (dsmeta_key_remap plain_env _ _ meta eq_refl Hmeta)) eq_refl eq_refl).
Defined.

(** C6. [conformsto] is the base URL followed by [/bids_spec<version>.pdf]
    when the version entry, with [None] treated as empty and with its
    surrounding whitespace stripped, is not empty (version "1.2" gives
    [/bids_spec1.2.pdf]), and the bare base URL when the entry is absent,
    [None], or made of whitespace only; in each of these cases a record is
    returned, and its comment<BIDSVersion> is the version entry. *)
Theorem conformsto_from_version (env : Env) (bids : Layout) (raw : gmap string pyval) :
  bids (opj (ds_path env) _dsdescr_fname) = Ok raw →
  (truthy (default VNone (raw !! "Description")) = true
   ∨ path_exists env (opj (ds_path env) "README") = false
   ∨ ∃ text, open_r_encdetect env (opj (ds_path env) "README") = Ok text) →
  (∀ meta, _get_dsmeta env bids = Ok meta →
     meta !! "comment<BIDSVersion>" = raw !! "BIDSVersion")
  ∧ (raw !! "BIDSVersion" = None ∨ raw !! "BIDSVersion" = Some VNone →
     ∃ meta, _get_dsmeta env bids = Ok meta
             ∧ meta !! "conformsto" = Some (VStr "http://bids.neuroimaging.io"))
  ∧ (∀ s, raw !! "BIDSVersion" = Some (VStr s) →
     ∃ meta, _get_dsmeta env bids = Ok meta
             ∧ meta !! "conformsto" =
                 Some (VStr (if whitespace_only s then "http://bids.neuroimaging.io"
                             else "http://bids.neuroimaging.io" +:+ "/bids_spec"
                                  +:+ strip s +:+ ".pdf"))
             ∧ stripped s (strip s)
             ∧ (∀ t, stripped s t → t = strip s))
  ∧ (raw !! "BIDSVersion" = Some (VStr "1.2") →
     ∃ meta, _get_dsmeta env bids = Ok meta
             ∧ meta !! "conformsto"
               = Some (VStr "http://bids.neuroimaging.io/bids_spec1.2.pdf")).
Proof.
  intros Hraw Hreadme.
  assert (Hkey : ∀ meta, _get_dsmeta env bids = Ok meta →
            meta !! "comment<BIDSVersion>" = raw !! "BIDSVersion"
            ∧ ∃ ver, py_strip (py_or (default (VStr "") (raw !! "BIDSVersion"))
                                 (VStr "")) = Ok ver
                     ∧ meta !! "conformsto" = Some (VStr (bids_defurl ver))).
  { intros meta Hmeta.
    destruct (_get_dsmeta_Ok _ _ _ Hmeta)
      as (raw' & meta1 & ver & Hraw' & Hother & _ & Hver & Hcon & Hkeep).
    rewrite Hraw in Hraw'. injection Hraw' as <-. split.
    - rewrite Hkeep by done. rewrite Hother by done. apply remapped_version.
    - by exists ver. }
  assert (Hstr : ∀ s, raw !! "BIDSVersion" = Some (VStr s) →
            ∃ meta, _get_dsmeta env bids = Ok meta
                    ∧ meta !! "conformsto" =
                        Some (VStr (if whitespace_only s then "http://bids.neuroimaging.io"
                                    else "http://bids.neuroimaging.io" +:+ "/bids_spec"
                                         +:+ strip s +:+ ".pdf"))).
  { intros s Hs.
    destruct (_get_dsmeta_total env bids raw Hraw Hreadme) as [meta Hmeta];
      [right; right; by exists s|].
    exists meta. split; [done|].
    destruct (Hkey _ Hmeta) as (_ & ver & Hver & ->).
    rewrite Hs in Hver. simpl in Hver. unfold py_or in Hver. simpl in Hver.
    assert (ver = strip s) as ->.
    { destruct (String.eqb_spec s "") as [->|_]; simpl in Hver; by injection Hver as <-. }
    unfold bids_defurl. rewrite strip_empty_eqb. by destruct (whitespace_only s). }
  split; [intros meta Hmeta; by destruct (Hkey _ Hmeta)|].
  split; [|split].
  - intros Hv.
    destruct (_get_dsmeta_total env bids raw Hraw Hreadme) as [meta Hmeta];
      [destruct Hv; by eauto|].
    exists meta. split; [done|].
    destruct (Hkey _ Hmeta) as (_ & ver & Hver & ->).
    destruct Hv as [Hv|Hv]; rewrite Hv in Hver; simpl in Hver; by injection Hver as <-.
  - intros s Hs. destruct (Hstr s Hs) as (meta & Hmeta & Hcon).
    exists meta. split; [done|]. split; [done|].
    split; [apply strip_stripped|]. intros t Ht. symmetry. by apply stripped_unique.
  - intros Hs. destruct (Hstr "1.2" Hs) as (meta & Hmeta & Hcon). by exists meta.
Qed.

Lemma conformsto_from_version_witness :
  (∃ meta, _get_dsmeta plain_env (example_layout {["Name" := VStr "X"]}) = Ok meta
           ∧ meta !! "conformsto" = Some (VStr "http://bids.neuroimaging.io"))
  ∧ (∃ meta, _get_dsmeta plain_env (example_layout (version_descr VNone)) = Ok meta
             ∧ meta !! "conformsto" = Some (VStr "http://bids.neuroimaging.io"))
  ∧ (∃ meta, _get_dsmeta plain_env (example_layout (version_descr (VStr blank_text)))
               = Ok meta
             ∧ meta !! "conformsto" = Some (VStr "http://bids.neuroimaging.io"))
  ∧ (∃ meta, _get_dsmeta plain_env (example_layout (version_descr (VStr " 1.2 ")))
               = Ok meta
             ∧ meta !! "conformsto"
               = Some (VStr "http://bids.neuroimaging.io/bids_spec1.2.pdf")).
Proof.
  split; [|split; [|split]].
  - refine (proj1 (proj2 (conformsto_from_version plain_env
              (example_layout {["Name" := VStr "X"]}) {["Name" := VStr "X"]}
              eq_refl (or_intror (or_introl eq_refl)))) (or_introl eq_refl)).
  - refine (proj1 (proj2 (conformsto_from_version plain_env
              (example_layout (version_descr VNone)) (version_descr VNone)
              eq_refl (or_intror (or_introl eq_refl)))) (or_intror eq_refl)).
  - destruct (proj1 (proj2 (proj2 (conformsto_from_version plain_env
              (example_layout (version_descr (VStr blank_text)))
              (version_descr (VStr blank_text))
              eq_refl (or_intror (or_introl eq_refl))))) blank_text eq_refl)
      as (meta & Hmeta & Hcon & _).
    exists meta. split; [exact Hmeta | exact Hcon].
  - destruct (proj1 (proj2 (proj2 (conformsto_from_version plain_env
              (example_layout (version_descr (VStr " 1.2 ")))
              (version_descr (VStr " 1.2 "))
              eq_refl (or_intror (or_introl eq_refl))))) " 1.2 " eq_refl)
      as (meta & Hmeta & Hcon & _).
    exists meta. split; [exact Hmeta | exact Hcon].
Defined.

(** C7. When the remapped descriptor metadata has no (truthy) description
    and a file README exists at the dataset root, the description of the
    dataset record is the full text of the README with the surrounding
    whitespace stripped: the text lies in the README between two runs of
    whitespace and is empty or begins and ends with a character that is not
    whitespace.  "  Hello world  " gives "Hello world".  A record is
    returned when the version entry is absent, [None] or a string. *)
Theorem description_from_readme (env : Env) (bids : Layout) (raw : gmap string pyval)
    (text : string) :
  bids (opj (ds_path env) _dsdescr_fname) = Ok raw →
  truthy (default VNone (remapped raw !! "description")) = false →
  path_exists env (opj (ds_path env) "README") = true →
  open_r_encdetect env (opj (ds_path env) "README") = Ok text →
  (∀ meta, _get_dsmeta env bids = Ok meta →
     ∃ desc, meta !! "description" = Some (VStr desc)
             ∧ stripped text desc
             ∧ desc = strip text)
  ∧ (raw !! "BIDSVersion" = None ∨ raw !! "BIDSVersion" = Some VNone
     ∨ (∃ s, raw !! "BIDSVersion" = Some (VStr s)) →
     ∃ meta desc, _get_dsmeta env bids = Ok meta
                  ∧ meta !! "description" = Some (VStr desc)
                  ∧ stripped text desc)
  ∧ (∀ t, stripped text t → t = strip text)
  ∧ (text = "  Hello world  " →
     ∀ meta, _get_dsmeta env bids = Ok meta →
             meta !! "description" = Some (VStr "Hello world")).
Proof.
  intros Hraw Hno Hex Htext.
  assert (Hdesc : ∀ meta, _get_dsmeta env bids = Ok meta →
            meta !! "description" = Some (VStr (strip text))).
  { intros meta Hmeta.
    destruct (_get_dsmeta_Ok _ _ _ Hmeta)
      as (raw' & meta1 & ver & Hraw' & _ & Hd & _ & _ & Hkeep).
    rewrite Hraw in Hraw'. injection Hraw' as <-.
    rewrite remapped_description in Hno. rewrite Hno, Hex in Hd. simpl in Hd.
    destruct Hd as (text' & Htext' & Hd). rewrite Htext in Htext'.
    injection Htext' as <-. by rewrite Hkeep. }
  split; [|split; [|split]].
  - intros meta Hmeta. exists (strip text).
    split; [by apply Hdesc|]. split; [apply strip_stripped | done].
  - intros Hver.
    destruct (_get_dsmeta_total env bids raw Hraw) as [meta Hmeta];
      [right; right; by exists text | done |].
    exists meta, (strip text). split; [done|].
    split; [by apply Hdesc | apply strip_stripped].
  - intros t Ht. symmetry. by apply stripped_unique.
  - intros -> meta Hmeta. by rewrite (Hdesc _ Hmeta).
Qed.

Lemma description_from_readme_witness :
  path_exists (readme_env "  Hello world  ")
    (opj (ds_path (readme_env "  Hello world  ")) "README") = true
  ∧ open_r_encdetect (readme_env "  Hello world  ")
      (opj (ds_path (readme_env "  Hello world  ")) "README") = Ok "  Hello world  "
  ∧ ∃ meta,
      _get_dsmeta (readme_env "  Hello world  ") (example_layout {["Name" := VStr "X"]})
        = Ok meta
      ∧ meta !! "description" = Some (VStr "Hello world")
      ∧ ∀ meta',
          _get_dsmeta (readme_env padded_readme) (example_layout {["Name" := VStr "X"]})
            = Ok meta' →
          meta' !! "description" = Some (VStr "Hello world").
Proof.
  split; [reflexivity|]. split; [reflexivity|].
  assert (Hno : truthy (default VNone (remapped {["Name" := VStr "X"]} !! "description"))
                = false).
  { rewrite remapped_description. reflexivity. }
  destruct (description_from_readme (readme_env "  Hello world  ")
              (example_layout {["Name" := VStr "X"]}) {["Name" := VStr "X"]}
              "  Hello world  " eq_refl Hno eq_refl eq_refl)
    as (_ & Hreturns & _ & Hhello).
  destruct (Hreturns (or_introl eq_refl)) as (meta & desc & Hmeta & _).
  exists meta. split; [exact Hmeta|]. split; [exact (Hhello eq_refl meta Hmeta)|].
  intros meta' Hmeta'.
  destruct (proj1 (description_from_readme (readme_env padded_readme)
              (example_layout {["Name" := VStr "X"]}) {["Name" := VStr "X"]}
              padded_readme eq_refl Hno eq_refl eq_refl) meta' Hmeta')
    as (desc' & Hdesc & _ & Heq).
  rewrite Hdesc, Heq. reflexivity.
Defined.

(** * The file records *)

(** C8, as stated, fails: in strict mode the first data file's query
    raises, and neither data file is yielded; and a candidate given twice
    is yielded twice. *)
Lemma paths_yielded_counterexample :
  ((yielded (_get_cnmeta strict_failing_env a_fails)).*1 = []
   ∧ List.filter not_json (paths strict_failing_env) = ["a.nii"; "b.nii"]
   ∧ (yielded (_get_cnmeta strict_failing_env a_fails)).*1
     ≠ List.filter not_json (paths strict_failing_env))
  ∧ (paths repeated_env = ["a.nii"; "a.nii"]
     ∧ (yielded (_get_cnmeta repeated_env (example_layout ∅))).*1 = ["a.nii"; "a.nii"]
     ∧ ¬ NoDup (yielded (_get_cnmeta repeated_env (example_layout ∅))).*1).
Proof.
  split.
  - split; [reflexivity|]. split; [reflexivity|]. vm_compute. discriminate.
  - split; [reflexivity|]. split; [reflexivity|].
    change ((yielded (_get_cnmeta repeated_env (example_layout ∅))).*1)
      with ["a.nii"; "a.nii"].
    intros Hnd. apply NoDup_cons in Hnd as [Hnot _]. apply Hnot. apply elem_of_cons; by left.
Qed.

(** C8, amended. The paths yielded are the candidates that do not end in
    [.json], in the order of the input and once per occurrence, up to the
    first candidate whose query raises in strict mode: the candidates
    before it are yielded, it and those after it are not, and its error
    ends the sequence.  They are all of them when strict mode is off or
    when no query raises.  No path ending in [.json] is ever yielded, and
    no path is yielded twice when the candidates are distinct. *)
Theorem paths_yielded (env : Env) (bids : Layout) :
  (∃ rest,
     List.filter not_json (paths env) = (yielded (_get_cnmeta env bids)).*1 ++ rest
     ∧ match ending (_get_cnmeta env bids) with
       | None => rest = []
       | Some e => raiseonerror env = true
                   ∧ ∃ f rest', rest = f :: rest' ∧ bids (opj (ds_path env) f) = Raise e
       end)
  ∧ (∀ pre f post e,
       paths env = pre ++ f :: post →
       raiseonerror env = true →
       endswith f ".json" = false →
       bids (opj (ds_path env) f) = Raise e →
       (∀ g, g ∈ pre → endswith g ".json" = false →
             ∃ raw, bids (opj (ds_path env) g) = Ok raw) →
       (yielded (_get_cnmeta env bids)).*1 = List.filter not_json pre
       ∧ ending (_get_cnmeta env bids) = Some e)
  ∧ (raiseonerror env = false →
     (yielded (_get_cnmeta env bids)).*1 = List.filter not_json (paths env)
     ∧ ending (_get_cnmeta env bids) = None)
  ∧ ((∀ f, f ∈ paths env → endswith f ".json" = false →
           ∃ raw, bids (opj (ds_path env) f) = Ok raw) →
     (yielded (_get_cnmeta env bids)).*1 = List.filter not_json (paths env)
     ∧ ending (_get_cnmeta env bids) = None)
  ∧ (∀ f, endswith f ".json" = true → f ∉ (yielded (_get_cnmeta env bids)).*1)
  ∧ (NoDup (paths env) → NoDup (yielded (_get_cnmeta env bids)).*1).
Proof.
  unfold _get_cnmeta.
  destruct (cnmeta_loop_paths env bids (path_props env) (paths env)) as (rest & Hp & He).
  split; [by exists rest|]. split; [|split; [|split; [|split]]].
  - intros pre f post e -> Hs Hj Hf Hpre. by apply cnmeta_loop_abort.
  - intros Hl. rewrite (cnmeta_loop_lenient _ _ _ _ Hl) in He. subst rest.
    rewrite app_nil_r in Hp. split; [done|]. by apply cnmeta_loop_lenient.
  - intros Hok. rewrite (cnmeta_loop_all_ok _ _ _ _ Hok) in He. subst rest.
    rewrite app_nil_r in Hp. split; [done|]. by apply cnmeta_loop_all_ok.
  - intros f Hj [[f' md] [Hf Hin]]%list_elem_of_fmap. simpl in Hf. subst f'.
    apply cnmeta_loop_record in Hin as (_ & Hj' & _). congruence.
  - intros Hnd. apply NoDup_ListNoDup in Hnd.
    apply (List.NoDup_filter not_json) in Hnd. apply NoDup_ListNoDup in Hnd.
    rewrite Hp in Hnd. by apply NoDup_app in Hnd as [? _].
Qed.

Lemma paths_yielded_witness :
  (raiseonerror strict_tail_env = true
   ∧ paths strict_tail_env = ["a.nii"; "a.json"; "b.nii"; "c.nii"]
   ∧ b_fails (opj (ds_path strict_tail_env) "b.nii") = Raise (ExternalError "get_metadata")
   ∧ (yielded (_get_cnmeta strict_tail_env b_fails)).*1 = ["a.nii"]
   ∧ ending (_get_cnmeta strict_tail_env b_fails) = Some (ExternalError "get_metadata"))
  ∧ (raiseonerror lenient_failing_env = false
     ∧ NoDup (paths lenient_failing_env)
     ∧ (yielded (_get_cnmeta lenient_failing_env a_fails)).*1 = ["a.nii"; "b.nii"]
     ∧ ("a.json" ∉ (yielded (_get_cnmeta lenient_failing_env a_fails)).*1)
     ∧ NoDup (yielded (_get_cnmeta lenient_failing_env a_fails)).*1).
Proof.
  split.
  - split; [reflexivity|]. split; [reflexivity|]. split; [reflexivity|].
    destruct (paths_yielded strict_tail_env b_fails) as (_ & Habort & _).
    apply (Habort ["a.nii"; "a.json"] "b.nii" ["c.nii"] (ExternalError "get_metadata")
             eq_refl eq_refl eq_refl eq_refl).
    intros g Hg Hj. apply elem_of_cons in Hg as [->|Hg].
    + exists ∅. reflexivity.
    + apply elem_of_cons in Hg as [->|Hg]; [discriminate Hj|].
      apply elem_of_nil in Hg. destruct Hg.
  - split; [reflexivity|].
    assert (Hnd : NoDup (paths lenient_failing_env)).
    { apply (bool_decide_unpack _). vm_compute. exact I. }
    split; [exact Hnd|].
    destruct (paths_yielded lenient_failing_env a_fails) as (_ & _ & Hl & _ & Hj & Hd).
    split; [exact (proj1 (Hl eq_refl))|].
    split; [apply Hj; reflexivity | exact (Hd Hnd)].
Defined.

(** C2, as stated, fails: the record of a file whose query raised has the
    key [bids:participant_id] as soon as a rule matches its path. *)
Lemma failed_query_counterexample :
  sub01_fails (opj (ds_path (sub01_fails_env false)) "sub-01/anat/t1.nii")
    = Raise (ExternalError "get_metadata")
  ∧ raiseonerror (sub01_fails_env false) = false
  ∧ ∃ md, ("sub-01/anat/t1.nii", md) ∈ yielded (_get_cnmeta (sub01_fails_env false) sub01_fails)
          ∧ md !! "bids:participant_id" = Some (VStr "sub-01")
          ∧ startswith "bids:participant_id" "bids:" = true.
Proof.
  split; [reflexivity|]. split; [reflexivity|].
  exists (overlay (path_props (sub01_fails_env false)) "sub-01/anat/t1.nii" ∅).
  split; [apply elem_of_cons; left; reflexivity|].
  split; [vm_compute; reflexivity | reflexivity].
Qed.

(** C2, amended. For a candidate file whose query raises: when strict mode
    is off the extractor yields, at the place of the file, the overlay of
    the empty record and continues with the remaining files; the keys of
    that record are exactly the keys of the matching rules (which may
    themselves start with [bids:]), each with the value of the last matching
    rule that defines it.  When strict mode is on, an error leaves the
    extractor (the file's own error if no earlier query failed) and only
    records of earlier files are yielded. *)
Theorem failed_query (env : Env) (bids : Layout) (pre post : list string)
    (f : string) (e : exn) :
  paths env = pre ++ f :: post →
  endswith f ".json" = false →
  bids (opj (ds_path env) f) = Raise e →
  (raiseonerror env = false →
     yielded (_get_cnmeta env bids)
       = yielded (cnmeta_loop env bids (path_props env) pre)
         ++ (f, overlay (path_props env) f ∅)
            :: yielded (cnmeta_loop env bids (path_props env) post)
     ∧ ending (_get_cnmeta env bids) = None
     ∧ (∀ k, (∀ rule, rule ∈ path_props env → rx_match rule.1 f = true →
                      rule.2 !! k = None) →
             overlay (path_props env) f ∅ !! k = None)
     ∧ (∀ rule k, rule ∈ path_props env → rx_match rule.1 f = true →
                  is_Some (rule.2 !! k) →
                  is_Some (overlay (path_props env) f ∅ !! k))
     ∧ (∀ pp1 rule pp2 k v,
          path_props env = pp1 ++ rule :: pp2 →
          rx_match rule.1 f = true → rule.2 !! k = Some v →
          (∀ rule', rule' ∈ pp2 → rx_match rule'.1 f = true → rule'.2 !! k = None) →
          overlay (path_props env) f ∅ !! k = Some v))
  ∧ (raiseonerror env = true →
     yielded (_get_cnmeta env bids) = yielded (cnmeta_loop env bids (path_props env) pre)
     ∧ (∃ e', ending (_get_cnmeta env bids) = Some e')
     ∧ ((∀ g, g ∈ pre → endswith g ".json" = false →
              ∃ raw, bids (opj (ds_path env) g) = Ok raw) →
        ending (_get_cnmeta env bids) = Some e)).
Proof.
  intros Hpaths Hj Hraise.
  assert (Hb : base_record env bids f = if raiseonerror env then Raise e else Ok ∅).
  { unfold base_record. by rewrite Hraise. }
  unfold _get_cnmeta. rewrite Hpaths, cnmeta_loop_app.
  rewrite cnmeta_loop_cons, Hj, Hb.
  split.
  - intros Hl. rewrite Hl, (cnmeta_loop_lenient _ _ _ pre Hl). simpl.
    split; [done|]. split; [by apply cnmeta_loop_lenient|].
    split; [|split].
    + intros k Hno. by rewrite overlay_untouched.
    + intros rule k. apply overlay_adds_keys.
    + intros pp1 rule pp2 k v ->. apply overlay_last_wins.
  - intros Hs. rewrite Hs.
    destruct (ending (cnmeta_loop env bids (path_props env) pre)) as [e'|] eqn:He; simpl.
    + rewrite He. split; [done|]. split; [by eauto|].
      intros Hok. by rewrite (cnmeta_loop_all_ok _ _ _ _ Hok) in He.
    + rewrite app_nil_r. split; [done|]. split; [by eauto | done].
Qed.

Lemma failed_query_witness :
  paths (sub01_fails_env false) = [] ++ "sub-01/anat/t1.nii" :: ["sub-02/anat/t1.nii"]
  ∧ endswith "sub-01/anat/t1.nii" ".json" = false
  ∧ sub01_fails (opj (ds_path (sub01_fails_env false)) "sub-01/anat/t1.nii")
      = Raise (ExternalError "get_metadata")
  ∧ raiseonerror (sub01_fails_env false) = false
  ∧ raiseonerror (sub01_fails_env true) = true
  ∧ ending (_get_cnmeta (sub01_fails_env false) sub01_fails) = None
  ∧ (yielded (_get_cnmeta (sub01_fails_env false) sub01_fails)).*1
      = ["sub-01/anat/t1.nii"; "sub-02/anat/t1.nii"]
  ∧ yielded (_get_cnmeta (sub01_fails_env true) sub01_fails) = []
  ∧ ending (_get_cnmeta (sub01_fails_env true) sub01_fails)
      = Some (ExternalError "get_metadata").
Proof.
  do 5 (split; [reflexivity|]).
  destruct (failed_query (sub01_fails_env false) sub01_fails [] ["sub-02/anat/t1.nii"]
              "sub-01/anat/t1.nii" (ExternalError "get_metadata")
              eq_refl eq_refl eq_refl) as [Hlenient _].
  destruct (failed_query (sub01_fails_env true) sub01_fails [] ["sub-02/anat/t1.nii"]
              "sub-01/anat/t1.nii" (ExternalError "get_metadata")
              eq_refl eq_refl eq_refl) as [_ Hstrict].
  destruct (Hlenient eq_refl) as (Hy & He & _).
  destruct (Hstrict eq_refl) as (Hy' & _ & He').
  split; [exact He|]. split; [rewrite Hy; reflexivity|]. split; [exact Hy'|].
  apply He'. intros g Hg. apply elem_of_nil in Hg. destruct Hg.
Defined.

(** C3, as stated, fails: a list, even one that holds mappings, is not
    dropped from the record. *)
Lemma nested_value_counterexample :
  bold_layout (opj (ds_path bold_env) "sub-01/func/bold.nii") = Ok bold_meta
  ∧ bold_meta !! "Series" = Some (VList [VDict [("Number", VInt 1)]])
  ∧ nested_structure (VList [VDict [("Number", VInt 1)]]) = true
  ∧ ∃ md, ("sub-01/func/bold.nii", md) ∈ yielded (_get_cnmeta bold_env bold_layout)
          ∧ md !! "bids:Series" = Some (VList [VDict [("Number", VInt 1)]]).
Proof.
  split; [reflexivity|]. split; [reflexivity|]. split; [reflexivity|].
  exists (overlay (path_props bold_env) "sub-01/func/bold.nii"
            (dict_comprehension (String.append "bids:") (λ v, negb (is_dict v)) bold_meta)).
  split; [apply elem_of_cons; left; reflexivity|].
  vm_compute; reflexivity.
Qed.

(** C3, amended. No value of a record is itself a mapping (dict).  An entry
    of the query result whose value is a dict is dropped: its [bids:] key
    is absent from the record, unless a matching rule defines that key, and
    then the value is the rule's.  An entry with any other value, a list
    included, is kept under its [bids:] key, unless a matching rule defines
    that key, and then the value is a matching rule's. *)
Theorem no_dict_in_records (env : Env) (bids : Layout) (f : string)
    (md : gmap string pyval) :
  (f, md) ∈ yielded (_get_cnmeta env bids) →
  (∀ k v, md !! k = Some v → is_dict v = false)
  ∧ (∀ raw k v, bids (opj (ds_path env) f) = Ok raw → raw !! k = Some v →
       (is_dict v = true →
          ((∀ rule, rule ∈ path_props env → rx_match rule.1 f = true →
                    rule.2 !! ("bids:" +:+ k) = None) →
           md !! ("bids:" +:+ k) = None)
          ∧ (∀ w, md !! ("bids:" +:+ k) = Some w →
                  ∃ rule, rule ∈ path_props env ∧ rx_match rule.1 f = true
                          ∧ rule.2 !! ("bids:" +:+ k) = Some w))
       ∧ (is_dict v = false →
          ((∀ rule, rule ∈ path_props env → rx_match rule.1 f = true →
                    rule.2 !! ("bids:" +:+ k) = None) →
           md !! ("bids:" +:+ k) = Some v)
          ∧ (∀ rule, rule ∈ path_props env → rx_match rule.1 f = true →
                     is_Some (rule.2 !! ("bids:" +:+ k)) →
                     ∃ rule' w, rule' ∈ path_props env ∧ rx_match rule'.1 f = true
                                ∧ rule'.2 !! ("bids:" +:+ k) = Some w
                                ∧ md !! ("bids:" +:+ k) = Some w))).
Proof.
  intros (_ & _ & base & Hbase & ->)%cnmeta_loop_record.
  assert (Hvalues : ∀ k v, overlay (path_props env) f base !! k = Some v → is_dict v = false).
  { apply overlay_values.
    - intros k v Hk. unfold base_record in Hbase.
      destruct (bids (opj (ds_path env) f)) as [raw|e].
      + injection Hbase as <-.
        apply dict_comprehension_Some in Hk as (_ & _ & _ & Hkeep); [|apply _].
        by apply negb_true_iff in Hkeep.
      + destruct (raiseonerror env); [done|]. injection Hbase as <-.
        by rewrite lookup_empty in Hk.
    - intros [rx props] k v (r & _ & Hr & _)%path_props_from_rows Hk. simpl in Hk.
      by destruct (row_props_values _ _ _ _ Hr Hk) as (s & -> & _). }
  split; [done|].
  intros raw k v Hraw Hk.
  assert (Hlook : base !! ("bids:" +:+ k) = if is_dict v then None else Some v).
  { unfold base_record in Hbase. rewrite Hraw in Hbase. injection Hbase as <-.
    rewrite (dict_comprehension_lookup (String.append "bids:")) by apply _.
    rewrite Hk. simpl. by destruct (is_dict v). }
  split; intros Hd; rewrite Hd in Hlook.
  - split.
    + intros Hno. by rewrite overlay_untouched.
    + intros w [Hrule|Hw]%overlay_origin; [done | congruence].
  - split.
    + intros Hno. by rewrite overlay_untouched.
    + intros rule Hin Hm Hsome. by apply (overlay_rule_value _ _ _ rule).
Qed.

Lemma no_dict_in_records_witness :
  scanner_layout (opj (ds_path bold_env) "sub-01/func/bold.nii") = Ok scanner_meta
  ∧ scanner_meta !! "Header" = Some (VDict [("Rows", VInt 64)])
  ∧ ∃ md, ("sub-01/func/bold.nii", md) ∈ yielded (_get_cnmeta bold_env scanner_layout)
          ∧ (∀ k v, md !! k = Some v → is_dict v = false)
          ∧ md !! "bids:Header" = None
          ∧ md !! "bids:RepetitionTime" = Some (VInt 2)
          ∧ md !! "bids:SliceTiming" = Some (VList [VInt 0; VInt 1]).
Proof.
  split; [reflexivity|]. split; [reflexivity|].
  exists (overlay (path_props bold_env) "sub-01/func/bold.nii"
            (dict_comprehension (String.append "bids:") (λ v, negb (is_dict v))
               scanner_meta)).
  assert (Hin : ("sub-01/func/bold.nii",
                 overlay (path_props bold_env) "sub-01/func/bold.nii"
                   (dict_comprehension (String.append "bids:") (λ v, negb (is_dict v))
                      scanner_meta))
                ∈ yielded (_get_cnmeta bold_env scanner_layout)).
  { apply elem_of_cons. left. reflexivity. }
  split; [exact Hin|].
  destruct (no_dict_in_records _ _ _ _ Hin) as [Hvalues Hkept].
  split; [exact Hvalues|].
  assert (Hnone : ∀ j (rule : Rule), rule ∈ path_props bold_env →
            rx_match rule.1 "sub-01/func/bold.nii" = true → rule.2 !! j = None).
  { intros j rule Hrule. apply elem_of_nil in Hrule. destruct Hrule. }
  split; [|split].
  - apply (proj1 (proj1 (Hkept scanner_meta "Header" (VDict [("Rows", VInt 64)])
                           eq_refl eq_refl) eq_refl)).
    apply Hnone.
  - apply (proj1 (proj2 (Hkept scanner_meta "RepetitionTime" (VInt 2)
                           eq_refl eq_refl) eq_refl)).
    apply Hnone.
  - apply (proj1 (proj2 (Hkept scanner_meta "SliceTiming" (VList [VInt 0; VInt 1])
                           eq_refl eq_refl) eq_refl)).
    apply Hnone.
Defined.

(** * The subject rules *)

(** C4. The identifier is put into the pattern as it is, so that its
    special characters act as pattern syntax: the properties of sub.01 are
    applied to a file under subX01/, whose path does not start with
    sub.01/, and the properties of sub*1 are not applied to a file under
    sub*1/.  This holds whatever [re] does outside the modelled fragment. *)
Theorem participant_pattern_not_escaped (rest : string → option (string → bool)) :
  (startswith "subX01/anat/t1.nii" ("sub.01" +:+ "/") = false
   ∧ ∃ md, yielded (_get_cnmeta (with_re_rest dotted_env rest) (example_layout ∅))
             = [("subX01/anat/t1.nii", md)]
           ∧ md !! "bids:age(years)" = Some (VStr "30"))
  ∧ (startswith "sub*1/anat/t1.nii" ("sub*1" +:+ "/") = true
     ∧ ∃ md, yielded (_get_cnmeta (with_re_rest starred_env rest) (example_layout ∅))
               = [("sub*1/anat/t1.nii", md)]
             ∧ md !! "bids:age(years)" = None).
Proof.
  split; (split; [reflexivity|]).
  - exists (overlay (path_props (with_re_rest dotted_env rest)) "subX01/anat/t1.nii"
              (dict_comprehension (String.append "bids:") (λ v, negb (is_dict v)) ∅)).
    split; [reflexivity|]. vm_compute; reflexivity.
  - exists (overlay (path_props (with_re_rest starred_env rest)) "sub*1/anat/t1.nii"
              (dict_comprehension (String.append "bids:") (λ v, negb (is_dict v)) ∅)).
    split; [reflexivity|]. vm_compute; reflexivity.
Qed.

(** For an identifier without special characters the rule is applied to a
    file if and only if its path starts with the identifier followed by
    [/]. *)
Lemma literal_rule_is_prefix (rest : string → option (string → bool)) (r : Row)
    (pid : string) (rx : Pattern) (f : string) :
  row_item (named r) "participant_id" = Some pid →
  literal pid = true →
  re_compile rest (rule_pattern r) = Ok rx →
  rx_match rx f = startswith f (pid +:+ "/").
Proof.
  intros Hpid Hlit. unfold rule_pattern. rewrite Hpid. simpl.
  destruct (re_compile_literal rest pid Hlit) as (rx' & Hrx & _ & Hm).
  change (String "^" (pid +:+ "/.*")) with ("^" +:+ pid +:+ "/.*").
  rewrite Hrx. intros [= <-]. apply Hm.
Qed.

Lemma column_key_cases (k : string) :
  column_key k =
    if String.eqb (lower k) "participant_id" then "bids:participant_id"
    else if String.eqb (lower k) "age" then "bids:age(years)"
    else "comment<participant#" +:+ lower k +:+ ">".
Proof.
  unfold column_key, content_metakey_map.
  destruct (String.eqb (lower k) "participant_id"); [reflexivity|].
  destruct (String.eqb (lower k) "age"); reflexivity.
Qed.

Lemma comment_key_eqb (x y : string) :
  String.eqb ("comment<participant#" +:+ x +:+ ">") ("comment<participant#" +:+ y +:+ ">")
  = String.eqb x y.
Proof.
  destruct (String.eqb_spec x y) as [->|Hne].
  - apply String.eqb_refl.
  - apply String.eqb_neq. intros [= H]. apply Hne. exact (append_gt_inj _ _ H).
Qed.

Lemma is_sex_key_cases (k : string) :
  is_sex_key (column_key k)
  = (String.eqb (lower k) "sex" || String.eqb (lower k) "gender")%bool.
Proof.
  rewrite column_key_cases.
  destruct (String.eqb_spec (lower k) "participant_id") as [Heq|_].
  { rewrite Heq. reflexivity. }
  destruct (String.eqb_spec (lower k) "age") as [Heq|_].
  { rewrite Heq. reflexivity. }
  unfold is_sex_key.
  change "comment<participant#sex>" with ("comment<participant#" +:+ "sex" +:+ ">").
  change "comment<participant#gender>" with ("comment<participant#" +:+ "gender" +:+ ">").
  by rewrite !comment_key_eqb.
Qed.

(** What one turn of the loop over the columns does with a column that has
    a text: the key is the table's entry for the lowercased name, or
    comment<participant#name>; the text of a sex or gender column is
    lowercased and f, m become female, male; an empty text is left out. *)
Lemma column_of_text (r : Row) (props : gmap string pyval) (k s : string) :
  row_item (named r) k = Some s →
  let hk := if String.eqb (lower k) "participant_id" then "bids:participant_id"
            else if String.eqb (lower k) "age" then "bids:age(years)"
            else "comment<participant#" +:+ lower k +:+ ">" in
  let val := if (String.eqb (lower k) "sex" || String.eqb (lower k) "gender")%bool
             then (if String.eqb (lower s) "f" then "female"
                   else if String.eqb (lower s) "m" then "male" else lower s)
             else s in
  column r props k = Ok (if String.eqb val "" then props else <[hk := VStr val]> props).
Proof.
  intros Hs. unfold column. rewrite is_sex_key_cases, Hs, column_key_cases. simpl.
  destruct (String.eqb (lower k) "sex" || String.eqb (lower k) "gender")%bool; simpl.
  - unfold sex_label_map.
    destruct (String.eqb (lower s) "f"); simpl; [reflexivity|].
    destruct (String.eqb (lower s) "m"); simpl; [reflexivity|].
    by destruct (String.eqb (lower s) "").
  - by destruct (String.eqb s "").
Qed.

(** A column without a value (a short line) is left out, unless it is a
    sex or gender column, on which the loop raises. *)
Lemma column_of_missing (r : Row) (props : gmap string pyval) (k : string) :
  row_item (named r) k = None →
  column r props k =
    if (String.eqb (lower k) "sex" || String.eqb (lower k) "gender")%bool
    then Raise AttributeError else Ok props.
Proof.
  intros Hs. unfold column. rewrite is_sex_key_cases, Hs. simpl.
  by destruct (String.eqb (lower k) "sex" || String.eqb (lower k) "gender")%bool.
Qed.

(** C9. With the two subjects of the claim on full lines, the file of
    sub-01 gets bids:age(years)=30 and comment<participant#sex>=female and
    the file of sub-02 gets no age.  When the line of sub-02 stops after the
    identifier (in a table read as tab-separated: one whose fields are all
    written in double quotes), the reader gives [None] for its sex column,
    the loop over its columns raises instead of leaving the column out, and
    the rows from it on are lost: the file of sub-02 gets nothing and the
    file of sub-03 gets neither age nor sex. *)
Theorem missing_sex_value_raises :
  (∃ md1 md2,
     yielded (_get_cnmeta (subjects_env two_subjects subject_files false) (example_layout ∅))
       = [("sub-01/anat/t1.nii", md1); ("sub-02/anat/t1.nii", md2);
          ("sub-03/anat/t1.nii", ∅)]
     ∧ md1 !! "bids:age(years)" = Some (VStr "30")
     ∧ md1 !! "comment<participant#sex>" = Some (VStr "female")
     ∧ md2 !! "bids:age(years)" = None
     ∧ md2 !! "bids:participant_id" = Some (VStr "sub-02"))
  ∧ (∃ r2, short_line_subjects !! 1 = Some r2
           ∧ row_item (named r2) "sex" = None
           ∧ row_props r2 = Raise AttributeError)
  ∧ (∃ md1,
       yielded (_get_cnmeta (subjects_env short_line_subjects subject_files false)
                  (example_layout ∅))
       = [("sub-01/anat/t1.nii", md1); ("sub-02/anat/t1.nii", ∅);
          ("sub-03/anat/t1.nii", ∅)]
       ∧ md1 !! "bids:age(years)" = Some (VStr "30")
       ∧ md1 !! "comment<participant#sex>" = Some (VStr "female")).
Proof.
  split; [|split].
  - exists (overlay (path_props (subjects_env two_subjects subject_files false)) "sub-01/anat/t1.nii"
       (dict_comprehension (String.append "bids:") (λ v, negb (is_dict v)) ∅)),
           (overlay (path_props (subjects_env two_subjects subject_files false)) "sub-02/anat/t1.nii"
       (dict_comprehension (String.append "bids:") (λ v, negb (is_dict v)) ∅)).
    split; [reflexivity|].
    repeat split; reflexivity.
  - eexists. split; [reflexivity|]. split; reflexivity.
  - exists (overlay (path_props (subjects_env short_line_subjects subject_files false)) "sub-01/anat/t1.nii"
       (dict_comprehension (String.append "bids:") (λ v, negb (is_dict v)) ∅)).
    split; [reflexivity|].
    split; reflexivity.
Qed.




(** * Further properties of the entry point *)

(** X1. The [content] flag has no effect on the dataset record or on
    whether the call raises: without it the call returns what it returns
    with it, with the sequence of file records replaced by the empty one. *)
Theorem content_flag_only_drops_files (env : Env) (dataset : string) :
  get_metadata env dataset false =
    match get_metadata env dataset true with
    | Ok (dsmeta, _) => Ok (dsmeta, Gen [] None)
    | Raise e => Raise e
    end.
Proof.
  unfold get_metadata.
  destruct (path_exists env _); simpl; [|reflexivity].
  destruct (BIDSLayout env (ds_path env)) as [bids|e]; simpl; [|reflexivity].
  destruct (_get_dsmeta env bids); reflexivity.
Qed.

(** X2. Once the descriptor file exists, a failure of the layout, of the
    descriptor query, or of reading a README that is needed for the
    description leaves [get_metadata] as an exception, for either value of
    [content] and whether or not strict mode is set. *)
Theorem descriptor_failures_propagate (env : Env) (dataset : string) (content : bool) :
  path_exists env (opj (ds_path env) _dsdescr_fname) = true →
  (∀ e, BIDSLayout env (ds_path env) = Raise e →
        get_metadata env dataset content = Raise e)
  ∧ (∀ bids e, BIDSLayout env (ds_path env) = Ok bids →
               bids (opj (ds_path env) _dsdescr_fname) = Raise e →
               get_metadata env dataset content = Raise e)
  ∧ (∀ bids raw e, BIDSLayout env (ds_path env) = Ok bids →
                   bids (opj (ds_path env) _dsdescr_fname) = Ok raw →
                   truthy (default VNone (raw !! "Description")) = false →
                   path_exists env (opj (ds_path env) "README") = true →
                   open_r_encdetect env (opj (ds_path env) "README") = Raise e →
                   get_metadata env dataset content = Raise e).
Proof.
  intros Hex. unfold get_metadata. rewrite Hex. simpl.
  split; [|split].
  - by intros e ->.
  - intros bids e -> Hq. simpl. unfold _get_dsmeta. by rewrite Hq.
  - intros bids raw e -> Hq Hno Hr He. simpl. unfold _get_dsmeta. rewrite Hq. simpl.
    rewrite remapped_description, Hno, Hr, He. reflexivity.
Qed.

Lemma descriptor_failures_propagate_witness :
  path_exists (broken_layout plain_env) (opj (ds_path (broken_layout plain_env)) _dsdescr_fname) = true
  ∧ raiseonerror (broken_layout plain_env) = false
  ∧ get_metadata (broken_layout plain_env) "/ds" true = Raise (ExternalError "BIDSLayout").
Proof.
  split; [reflexivity|]. split; [reflexivity|].
  exact (proj1 (descriptor_failures_propagate (broken_layout plain_env) "/ds" true eq_refl)
           (ExternalError "BIDSLayout") eq_refl).
Defined.

(** * Further properties of the dataset record *)

(** X3. A version entry that is not a string: a falsy one (zero, false,
    an empty list or mapping) counts as no version and gives the bare base
    URL; a truthy one makes [_get_dsmeta] raise [AttributeError], as
    [strip] is called on it. *)
Theorem version_not_a_string (env : Env) (bids : Layout) (raw : gmap string pyval)
    (v : pyval) :
  bids (opj (ds_path env) _dsdescr_fname) = Ok raw →
  (∃ text, open_r_encdetect env (opj (ds_path env) "README") = Ok text) →
  raw !! "BIDSVersion" = Some v →
  (∀ s, v ≠ VStr s) →
  if truthy v then _get_dsmeta env bids = Raise AttributeError
  else ∃ meta, _get_dsmeta env bids = Ok meta
               ∧ meta !! "conformsto" = Some (VStr "http://bids.neuroimaging.io").
Proof.
  intros Hraw [text Htext] Hv Hns. unfold _get_dsmeta. rewrite Hraw. simpl.
  rewrite Htext. simpl.
  assert (Hstrip : py_strip (py_or (default (VStr "") (raw !! "BIDSVersion")) (VStr ""))
                   = if truthy v then Raise AttributeError else Ok "").
  { rewrite Hv. simpl. unfold py_or. destruct (truthy v) eqn:Ht; [|reflexivity].
    destruct v; try reflexivity. by destruct (Hns s). }
  destruct (_ && _)%bool; simpl.
  - rewrite lookup_insert_ne by done. rewrite remapped_version, Hstrip.
    destruct (truthy v); simpl; [reflexivity|].
    eexists. split; [reflexivity|].
    rewrite lookup_insert_ne by done. by rewrite lookup_insert_eq.
  - rewrite remapped_version, Hstrip.
    destruct (truthy v); simpl; [reflexivity|].
    eexists. split; [reflexivity|].
    rewrite lookup_insert_ne by done. by rewrite lookup_insert_eq.
Qed.

Lemma version_not_a_string_witness :
  _get_dsmeta plain_env (example_layout numeric_version) = Raise AttributeError
  ∧ ∃ meta, _get_dsmeta plain_env (example_layout zero_version) = Ok meta
            ∧ meta !! "conformsto" = Some (VStr "http://bids.neuroimaging.io").
Proof.
  split.
  - refine (version_not_a_string plain_env (example_layout numeric_version)
              numeric_version (VInt 1) eq_refl _ eq_refl _);
      [by eexists | discriminate].
  - refine (version_not_a_string plain_env (example_layout zero_version)
              zero_version (VInt 0) eq_refl _ eq_refl _);
      [by eexists | discriminate].
Defined.

(** The reference URL and the vocabulary context of a dataset record. *)
Lemma _get_dsmeta_context (env : Env) (bids : Layout) (meta : gmap string pyval) :
  _get_dsmeta env bids = Ok meta →
  ∃ ver,
    meta !! "conformsto" = Some (VStr (bids_defurl ver))
    ∧ meta !! "@context" =
        Some (VDict ([("bids",
                       VDict [("@id", VStr (bids_defurl ver +:+ "#"));
                              ("description",
                               VStr "ad-hoc vocabulary for the Brain Imaging Data Structure (BIDS) standard");
                              ("type", vocabulary_id env)])] ++ vocabulary)).
Proof.
  unfold _get_dsmeta. intros H.
  destruct (bids _) as [raw|]; [|done]. simpl in H.
  match type of H with
  | context [mbind _ ?m] => destruct m as [meta1|]; [|done]
  end.
  simpl in H. destruct (py_strip _) as [ver|]; [|done]. simpl in H.
  injection H as <-. exists ver. split.
  - rewrite lookup_insert_ne by done. by rewrite lookup_insert_eq.
  - by rewrite lookup_insert_eq.
Qed.

(** X4. In every dataset record the identifier of the [bids] vocabulary
    in [@context] is the [conformsto] URL followed by [#], next to the
    static vocabulary; and the descriptor cannot set either entry: its keys
    [conformsto] and [@context] are stored as comment<conformsto> and
    comment<@context>. *)
Theorem context_follows_conformsto (env : Env) (bids : Layout)
    (raw meta : gmap string pyval) :
  bids (opj (ds_path env) _dsdescr_fname) = Ok raw →
  _get_dsmeta env bids = Ok meta →
  (∃ url,
     meta !! "conformsto" = Some (VStr url)
     ∧ startswith url "http://bids.neuroimaging.io" = true
     ∧ meta !! "@context" =
         Some (VDict ([("bids",
                        VDict [("@id", VStr (url +:+ "#"));
                               ("description",
                                VStr "ad-hoc vocabulary for the Brain Imaging Data Structure (BIDS) standard");
                               ("type", vocabulary_id env)])] ++ vocabulary)))
  ∧ meta !! "comment<conformsto>" = raw !! "conformsto"
  ∧ meta !! "comment<@context>" = raw !! "@context".
Proof.
  intros Hraw Hmeta.
  destruct (_get_dsmeta_context _ _ _ Hmeta) as (ver & Hcon & Hctx).
  destruct (_get_dsmeta_Ok _ _ _ Hmeta) as (raw' & meta1 & _ & Hraw' & Hother & _ & _ & _ & Hkeep).
  rewrite Hraw in Hraw'. injection Hraw' as <-.
  split.
  - exists (bids_defurl ver). split; [done|]. split; [|done].
    unfold bids_defurl. by destruct (negb _).
  - split.
    + rewrite Hkeep, Hother by done. apply (remapped_lookup raw "conformsto").
    + rewrite Hkeep, Hother by done. apply (remapped_lookup raw "@context").
Qed.

Lemma context_follows_conformsto_witness :
  ∃ meta,
    _get_dsmeta plain_env (example_layout overriding) = Ok meta
    ∧ (∃ url, meta !! "conformsto" = Some (VStr url)
              ∧ startswith url "http://bids.neuroimaging.io" = true)
    ∧ meta !! "comment<conformsto>" = Some (VStr "http://example.org").
Proof.
  destruct (_get_dsmeta_returns plain_env (example_layout overriding) overriding)
    as [meta Hmeta]; [reflexivity | by eexists | by left |].
  exists meta. split; [exact Hmeta|].
  destruct (context_follows_conformsto plain_env (example_layout overriding)
              overriding meta eq_refl Hmeta) as ((url & Hurl & Hpre & _) & Hc & _).
  split; [exists url; split; [exact Hurl | exact Hpre] | exact Hc].
Defined.

(** X5. An explicit, truthy description is kept as it is: the README is
    not read, so that even a README that cannot be read does not make the
    call raise. *)
Theorem explicit_description_kept (env : Env) (bids : Layout)
    (raw : gmap string pyval) (v : pyval) :
  bids (opj (ds_path env) _dsdescr_fname) = Ok raw →
  raw !! "Description" = Some v →
  truthy v = true →
  (raw !! "BIDSVersion" = None ∨ raw !! "BIDSVersion" = Some VNone
   ∨ ∃ s, raw !! "BIDSVersion" = Some (VStr s)) →
  ∃ meta, _get_dsmeta env bids = Ok meta ∧ meta !! "description" = Some v.
Proof.
  intros Hraw Hd Ht Hver. unfold _get_dsmeta. rewrite Hraw. simpl.
  rewrite remapped_description, Hd. simpl. rewrite Ht. simpl.
  rewrite remapped_version.
  assert (∃ ver, py_strip (py_or (default (VStr "") (raw !! "BIDSVersion")) (VStr ""))
                 = Ok ver) as [ver ->].
  { destruct Hver as [->|[->|[s ->]]]; simpl; eauto.
    unfold py_or. destruct (truthy (VStr s)); simpl; eauto. }
  simpl. eexists. split; [reflexivity|].
  rewrite !lookup_insert_ne by done. by rewrite remapped_description.
Qed.

Lemma explicit_description_kept_witness :
  open_r_encdetect (unreadable_readme (readme_env "")) "/ds/README"
    = Raise (ExternalError "open")
  ∧ path_exists (unreadable_readme (readme_env "")) "/ds/README" = true
  ∧ ∃ meta, _get_dsmeta (unreadable_readme (readme_env "")) (example_layout described)
              = Ok meta
            ∧ meta !! "description" = Some (VStr "A study").
Proof.
  split; [reflexivity|]. split; [reflexivity|].
  refine (explicit_description_kept (unreadable_readme (readme_env ""))
            (example_layout described) described (VStr "A study")
            eq_refl eq_refl eq_refl _).
  by left.
Defined.

(** X6. A dataset record holds nothing but the remapped entries of the
    descriptor, the stripped README text as description, [conformsto] and
    [@context]; without a Description in the descriptor and without a
    README it has no description. *)
Theorem dsmeta_keys (env : Env) (bids : Layout) (raw meta : gmap string pyval) :
  bids (opj (ds_path env) _dsdescr_fname) = Ok raw →
  _get_dsmeta env bids = Ok meta →
  (∀ j v, meta !! j = Some v →
     j = "conformsto" ∨ j = "@context"
     ∨ (j = "description"
        ∧ ∃ text, open_r_encdetect env (opj (ds_path env) "README") = Ok text
                  ∧ v = VStr (strip text))
     ∨ ∃ k, j = stdkey k ∧ raw !! k = Some v)
  ∧ (raw !! "Description" = None →
     path_exists env (opj (ds_path env) "README") = false →
     meta !! "description" = None).
Proof.
  intros Hraw Hmeta.
  destruct (_get_dsmeta_Ok _ _ _ Hmeta)
    as (raw' & meta1 & ver & Hraw' & Hother & Hdesc & _ & _ & Hkeep).
  rewrite Hraw in Hraw'. injection Hraw' as <-.
  split.
  - intros j v Hj.
    destruct (decide (j = "conformsto")) as [->|H1]; [by left|].
    destruct (decide (j = "@context")) as [->|H2]; [by right; left|].
    right; right. rewrite (Hkeep _ H1 H2) in Hj.
    destruct (decide (j = "description")) as [->|H3].
    + destruct (_ && _)%bool.
      * left. split; [done|]. destruct Hdesc as (text & Ht & Hd).
        rewrite Hd in Hj. injection Hj as <-. eauto.
      * right. exists "Description". split; [done|]. by rewrite <- Hdesc.
    + right. rewrite (Hother _ H3) in Hj.
      apply dict_comprehension_Some in Hj as (k & -> & Hk & _); [|apply _]. eauto.
  - intros Hno Hex. rewrite Hkeep by done. rewrite Hno, Hex in Hdesc.
    simpl in Hdesc. by rewrite Hdesc.
Qed.

Lemma dsmeta_keys_witness :
  ∃ meta, _get_dsmeta plain_env (example_layout {["Name" := VStr "X"]}) = Ok meta
          ∧ meta !! "description" = None.
Proof.
  destruct (_get_dsmeta_returns plain_env (example_layout {["Name" := VStr "X"]})
              {["Name" := VStr "X"]})
    as [meta Hmeta]; [reflexivity | by eexists | by left |].
  exists meta. split; [exact Hmeta|].
  exact (proj2 (dsmeta_keys plain_env _ _ meta eq_refl Hmeta) eq_refl eq_refl).
Defined.

(** * Further properties of the subject table loader *)

(** X7. The loader stops at the first row that lacks the participant_id
    column, whose columns raise, or whose pattern does not compile: the rows
    after it, and the way the reader ends, have no influence on its
    result. *)
Theorem loader_stops (rest : string → option (string → bool))
    (rs1 rs2 rs2' : list Row) (r : Row) (tail tail' : option exn) :
  (row_has r "participant_id" = false
   ∨ (∃ e, row_props r = Raise e)
   ∨ (∃ props e, row_props r = Ok props ∧ size props ≠ 0
                 ∧ re_compile rest (rule_pattern r) = Raise e)) →
  participant_rules rest (rs1 ++ r :: rs2) tail
  = participant_rules rest (rs1 ++ r :: rs2') tail'.
Proof.
  intros Hstop. induction rs1 as [|r1 rs1 IH]; simpl.
  - destruct (row_has r "participant_id"); simpl; [|reflexivity].
    destruct Hstop as [?|[[e ->]|(props & e & -> & Hsize & ->)]]; [done|reflexivity|].
    apply Nat.eqb_neq in Hsize. by rewrite Hsize.
  - by rewrite IH.
Qed.

Lemma loader_stops_witness :
  row_has no_id_row "participant_id" = false
  ∧ participant_rules (λ _, None) ([] ++ no_id_row :: two_subjects)
      (Some (ExternalError "csv"))
    = Gen [] None.
Proof.
  split; [reflexivity|].
  rewrite (loader_stops (λ _, None) [] two_subjects [] no_id_row
             (Some (ExternalError "csv")) None (or_introl eq_refl)).
  reflexivity.
Defined.

(** One turn of the loop over the columns raises exactly on a sex or gender
    column without a value. *)
Lemma column_raises (r : Row) (props : gmap string pyval) (k : string) :
  (∃ e, column r props k = Raise e)
  ↔ is_sex_key (column_key k) = true ∧ row_item (named r) k = None.
Proof.
  unfold column. destruct (is_sex_key (column_key k)); simpl.
  - destruct (row_item (named r) k); simpl.
    + split; [intros [e He]; done | intros [_ ?]; done].
    + split; [done | eauto].
  - split; [intros [e He]; done | intros [? _]; done].
Qed.

Lemma column_raises_AttributeError (r : Row) (props : gmap string pyval) (k : string) e :
  column r props k = Raise e → e = AttributeError.
Proof.
  unfold column. destruct (is_sex_key (column_key k)); simpl; [|done].
  destruct (row_item (named r) k); simpl; [done|]. by intros [= <-].
Qed.

Lemma columns_raise_iff (r : Row) (ks : list string) (props : gmap string pyval) :
  (∃ e, columns_from r (Ok props) ks = Raise e)
  ↔ ∃ k, k ∈ ks ∧ is_sex_key (column_key k) = true ∧ row_item (named r) k = None.
Proof.
  revert props. induction ks as [|k ks IH]; intros props; simpl.
  - split; [intros [e He]; done | intros (k & Hk & _); by apply elem_of_nil in Hk].
  - destruct (column r props k) as [p1|e] eqn:Hc; simpl.
    + rewrite IH. split.
      * intros (k' & Hk' & H). exists k'. split; [apply elem_of_cons; by right | done].
      * intros (k' & [->|Hk']%elem_of_cons & Hs & Hn); [|by eauto].
        assert (∃ e, column r props k = Raise e) as [e He]; [by apply column_raises|].
        congruence.
    + rewrite columns_raise. split; [|by eauto].
      intros _. exists k. split; [apply elem_of_cons; by left|].
      apply (column_raises r props). eauto.
Qed.

Lemma columns_raise_AttributeError (r : Row) (ks : list string)
    (props : gmap string pyval) e :
  columns_from r (Ok props) ks = Raise e → e = AttributeError.
Proof.
  revert props. induction ks as [|k ks IH]; intros props; simpl; [done|].
  destruct (column r props k) as [p1|e'] eqn:Hc; simpl; [apply IH|].
  rewrite columns_raise. intros [= <-]. by eapply column_raises_AttributeError.
Qed.

(** X8. The loop over the columns of a row raises exactly when the line
    had more fields than the header or a sex or gender column has no value
    (a line shorter than the header); the exception is always
    [AttributeError]. *)
Theorem row_props_raises (r : Row) :
  ((∃ e, row_props r = Raise e)
   ↔ extra r ≠ None
     ∨ ∃ k, k ∈ (named r).*1
            ∧ (lower k = "sex" ∨ lower k = "gender")
            ∧ row_item (named r) k = None)
  ∧ ∀ e, row_props r = Raise e → e = AttributeError.
Proof.
  assert (Hsex : ∀ k, is_sex_key (column_key k) = true
                      ↔ lower k = "sex" ∨ lower k = "gender").
  { intros k. rewrite is_sex_key_cases, orb_true_iff.
    by rewrite !String.eqb_eq. }
  unfold row_props. split.
  - destruct (columns_from r (Ok ∅) (named r).*1) as [props|e] eqn:Hc; simpl.
    + assert (Hnone : ¬ ∃ k, k ∈ (named r).*1
                             ∧ (lower k = "sex" ∨ lower k = "gender")
                             ∧ row_item (named r) k = None).
      { intros (k & Hk & Hs & Hn).
        assert (∃ e, columns_from r (Ok ∅) (named r).*1 = Raise e) as [e He].
        { apply columns_raise_iff. exists k. by rewrite Hsex. }
        congruence. }
      destruct (extra r); split.
      * intros _. by left.
      * eauto.
      * intros [e He]. done.
      * intros [?|?]; done.
    + split; [|by eauto]. intros _. right.
      assert (∃ e, columns_from r (Ok ∅) (named r).*1 = Raise e) as He by eauto.
      apply columns_raise_iff in He as (k & Hk & Hs & Hn).
      exists k. by rewrite <- Hsex.
  - intros e. destruct (columns_from r (Ok ∅) (named r).*1) as [props|e'] eqn:Hc; simpl.
    + destruct (extra r); [by intros [= <-] | done].
    + intros [= <-]. by eapply columns_raise_AttributeError.
Qed.

Lemma row_props_raises_witness :
  extra long_row ≠ None ∧ row_props long_row = Raise AttributeError.
Proof.
  split; [discriminate|].
  destruct (row_props_raises long_row) as [Hiff Hattr].
  destruct (proj2 Hiff) as [e He]; [left; discriminate|].
  rewrite He. f_equal. exact (Hattr e He).
Defined.

Lemma row_item_elem (r : list (string * option string)) (k : string) :
  k ∈ r.*1 → ∃ v, (k, v) ∈ r ∧ row_item r k = v.
Proof.
  induction r as [|[k' v'] r IH]; simpl.
  - intros H. by apply elem_of_nil in H.
  - destruct (String.eqb_spec k' k) as [->|Hne].
    + intros _. exists v'. split; [apply elem_of_cons; by left | done].
    + intros [?|Hin]%elem_of_cons; [done|].
      destruct (IH Hin) as (v & Hv & Hrow). exists v.
      split; [apply elem_of_cons; by right | done].
Qed.

Lemma columns_unchanged (r : Row) (ks : list string) (props : gmap string pyval) :
  (∀ k, k ∈ ks → column r props k = Ok props) →
  columns_from r (Ok props) ks = Ok props.
Proof.
  induction ks as [|k ks IH]; intros Hks; simpl; [done|].
  rewrite Hks by (apply elem_of_cons; by left). simpl.
  apply IH. intros k' Hk'. apply Hks. apply elem_of_cons; by right.
Qed.

(** X9. A row whose fields are all empty (or missing, for columns other
    than sex and gender) yields no rule and does not stop the loader: the
    rows after it are read as if it were not there. *)
Theorem blank_row_skipped (rest : string → option (string → bool))
    (r : Row) (rs : list Row) (tail : option exn) :
  row_has r "participant_id" = true →
  extra r = None →
  (∀ k v, (k, v) ∈ named r →
          v = Some "" ∨ (v = None ∧ lower k ≠ "sex" ∧ lower k ≠ "gender")) →
  row_props r = Ok ∅
  ∧ participant_rules rest (r :: rs) tail = participant_rules rest rs tail.
Proof.
  intros Hid Hextra Hblank.
  assert (Hprops : row_props r = Ok ∅).
  { unfold row_props. rewrite columns_unchanged; [by rewrite Hextra|].
    intros k Hk. destruct (row_item_elem _ _ Hk) as (v & Hv & Hrow).
    unfold column. rewrite Hrow, is_sex_key_cases.
    destruct (Hblank _ _ Hv) as [->|(-> & Hs & Hg)].
    - by destruct (_ || _)%bool.
    - apply String.eqb_neq in Hs, Hg. by rewrite Hs, Hg. }
  split; [done|]. simpl. by rewrite Hid, Hprops.
Qed.

Lemma blank_row_skipped_witness :
  row_has blank_row "participant_id" = true
  ∧ extra blank_row = None
  ∧ participant_rules (λ _, None) (blank_row :: one_subject) None
    = participant_rules (λ _, None) one_subject None.
Proof.
  split; [reflexivity|]. split; [reflexivity|].
  refine (proj2 (blank_row_skipped (λ _, None) blank_row one_subject None
                   eq_refl eq_refl _)).
  intros k v Hin. left.
  apply elem_of_cons in Hin as [Hin|Hin]; [by injection Hin|].
  apply elem_of_cons in Hin as [Hin|Hin]; [by injection Hin|].
  apply elem_of_cons in Hin as [Hin|Hin]; [by injection Hin|].
  apply elem_of_nil in Hin. destruct Hin.
Defined.

(** X10. An identifier without any special character of the pattern
    syntax always gives a pattern that compiles, and its rule matches a
    path if and only if the path starts with the identifier followed by
    [/]. *)
Theorem literal_identifier_rule (rest : string → option (string → bool)) (r : Row)
    (pid : string) :
  row_item (named r) "participant_id" = Some pid →
  literal pid = true →
  ∃ rx, re_compile rest (rule_pattern r) = Ok rx
        ∧ pattern rx = "^" +:+ pid +:+ "/.*"
        ∧ ∀ f, rx_match rx f = startswith f (pid +:+ "/").
Proof.
  intros Hpid Hlit. unfold rule_pattern. rewrite Hpid.
  apply (re_compile_literal rest pid Hlit).
Qed.

Lemma literal_identifier_rule_witness :
  literal "sub-01" = true
  ∧ ∃ rx, re_compile (λ _, None)
            (rule_pattern (full_row [("participant_id", "sub-01"); ("age", "30")])) = Ok rx
          ∧ rx_match rx "sub-01/anat/t1.nii" = true
          ∧ rx_match rx "sub-010/anat/t1.nii" = false.
Proof.
  split; [reflexivity|].
  destruct (literal_identifier_rule (λ _, None)
              (full_row [("participant_id", "sub-01"); ("age", "30")]) "sub-01"
              eq_refl eq_refl) as (rx & Hrx & _ & Hm).
  exists rx. split; [exact Hrx|]. split; rewrite Hm; reflexivity.
Defined.

(** X11. A row that has the participant_id column but no value in it (a
    line that stops before that column) and some other property yields a
    rule all the same: its pattern is [^None/.*], which matches the paths
    that start with [None/]. *)
Theorem missing_identifier_rule (rest : string → option (string → bool)) (r : Row)
    (rs : list Row) (tail : option exn) (props : gmap string pyval) :
  row_has r "participant_id" = true →
  row_item (named r) "participant_id" = None →
  row_props r = Ok props → size props ≠ 0 →
  ∃ rx, participant_rules rest (r :: rs) tail
        = gen_yield (rx, props) (participant_rules rest rs tail)
        ∧ pattern rx = "^None/.*"
        ∧ ∀ f, rx_match rx f = startswith f "None/".
Proof.
  intros Hid Hnone Hprops Hsize. simpl. rewrite Hid, Hprops. simpl.
  apply Nat.eqb_neq in Hsize. rewrite Hsize.
  unfold rule_pattern. rewrite Hnone.
  destruct (re_compile_literal rest "None" eq_refl) as (rx & Hrx & Hpat & Hm).
  simpl in Hrx. change (re_compile rest "^None/.*" = Ok rx) in Hrx.
  change ("^" +:+ format_field None +:+ "/.*") with "^None/.*". rewrite Hrx.
  exists rx. done.
Qed.

Lemma missing_identifier_rule_witness :
  row_has no_id_value_row "participant_id" = true
  ∧ row_item (named no_id_value_row) "participant_id" = None
  ∧ ∃ rx props, yielded (participant_rules (λ _, None) [no_id_value_row] None)
                  = [(rx, props)]
                ∧ props !! "bids:age(years)" = Some (VStr "30")
                ∧ rx_match rx "None/anat/t1.nii" = true.
Proof.
  split; [reflexivity|]. split; [reflexivity|].
  assert (Hprops : row_props no_id_value_row = Ok (<["bids:age(years)" := VStr "30"]> ∅)).
  { reflexivity. }
  assert (Hsize : size (<["bids:age(years)" := VStr "30"]> (∅ : gmap string pyval)) ≠ 0).
  { vm_compute. discriminate. }
  destruct (missing_identifier_rule (λ _, None) no_id_value_row [] None
              (<["bids:age(years)" := VStr "30"]> ∅) eq_refl eq_refl Hprops Hsize)
    as (rx & Hrules & _ & Hm).
  exists rx, (<["bids:age(years)" := VStr "30"]> ∅).
  split; [rewrite Hrules; reflexivity|]. split; [reflexivity|].
  rewrite Hm. reflexivity.
Defined.

(** * Further properties of the rule table *)

Lemma setitem_key_elem {V} (d : list (Pattern * V)) (rx : Pattern) (v : V) (k : string) :
  k ∈ (λ e : Pattern * V, pattern e.1) <$> setitem d rx v →
  k ∈ (λ e : Pattern * V, pattern e.1) <$> d ∨ k = pattern rx.
Proof.
  intros ([rx' v'] & -> & Hin)%list_elem_of_fmap. simpl.
  apply setitem_elem in Hin as [Hin|(_ & Hpat & _)]; [|by right].
  left. apply list_elem_of_fmap. by exists (rx', v').
Qed.

Lemma setitem_NoDup {V} (d : list (Pattern * V)) (rx : Pattern) (v : V) :
  NoDup ((λ e : Pattern * V, pattern e.1) <$> d) →
  NoDup ((λ e : Pattern * V, pattern e.1) <$> setitem d rx v).
Proof.
  induction d as [|[rx0 v0] d IH]; simpl.
  - intros _. apply NoDup_singleton.
  - intros [Hnin Hnd]%NoDup_cons.
    destruct (String.eqb_spec (pattern rx0) (pattern rx)) as [Heq|Hne]; simpl.
    + by apply NoDup_cons.
    + apply NoDup_cons. split; [|by apply IH].
      intros [Hin|Heq]%setitem_key_elem; done.
Qed.

Lemma setitem_has {V} (d : list (Pattern * V)) (rx : Pattern) (v : V) :
  ∃ rx', (rx', v) ∈ setitem d rx v ∧ pattern rx' = pattern rx.
Proof.
  induction d as [|[rx0 v0] d (rx' & Hin & Hpat)]; simpl.
  - exists rx. split; [apply elem_of_cons; by left | done].
  - destruct (String.eqb_spec (pattern rx0) (pattern rx)) as [Heq|Hne].
    + exists rx0. split; [apply elem_of_cons; by left | done].
    + exists rx'. split; [apply elem_of_cons; by right | done].
Qed.

Lemma setitem_other {V} (d : list (Pattern * V)) (rx : Pattern) (v : V) rx' v' :
  pattern rx' ≠ pattern rx → (rx', v') ∈ d → (rx', v') ∈ setitem d rx v.
Proof.
  intros Hne. induction d as [|[rx0 v0] d IH]; simpl.
  - intros H. by apply elem_of_nil in H.
  - intros [[= <- <-]|Hin]%elem_of_cons.
    + destruct (String.eqb_spec (pattern rx') (pattern rx)); [done|].
      apply elem_of_cons; by left.
    + destruct (String.eqb_spec (pattern rx0) (pattern rx));
        apply elem_of_cons; right; [done | by apply IH].
Qed.

Lemma pattern_key_unique {V} (d : list (Pattern * V)) rx1 v1 rx2 v2 :
  NoDup ((λ e : Pattern * V, pattern e.1) <$> d) →
  (rx1, v1) ∈ d → (rx2, v2) ∈ d → pattern rx1 = pattern rx2 → v1 = v2.
Proof.
  induction d as [|[rx0 v0] d IH]; simpl.
  - intros _ H. by apply elem_of_nil in H.
  - intros [Hnin Hnd]%NoDup_cons H1 H2 Hpat.
    apply elem_of_cons in H1 as [[= -> ->]|H1];
      apply elem_of_cons in H2 as [[= -> ->]|H2].
    + done.
    + exfalso. apply Hnin. apply list_elem_of_fmap. exists (rx2, v2).
      split; [simpl; congruence | done].
    + exfalso. apply Hnin. apply list_elem_of_fmap. exists (rx1, v1).
      split; [simpl; congruence | done].
    + by apply IH.
Qed.

Lemma rule_table_NoDup (ys acc : list Rule) :
  NoDup (pattern_keys acc) →
  NoDup (pattern_keys (foldl (λ pp rule, setitem pp rule.1 rule.2) acc ys)).
Proof.
  revert acc. induction ys as [|y ys IH]; intros acc Hacc; simpl; [done|].
  apply IH. by apply setitem_NoDup.
Qed.

Lemma rule_table_keeps (ys acc : list Rule) (rx : Pattern) (p : gmap string pyval) :
  (∀ rule, rule ∈ ys → pattern rule.1 ≠ pattern rx) →
  (rx, p) ∈ acc →
  (rx, p) ∈ foldl (λ pp rule, setitem pp rule.1 rule.2) acc ys.
Proof.
  revert acc. induction ys as [|y ys IH]; intros acc Hys Hin; simpl; [done|].
  apply IH.
  - intros rule Hrule. apply Hys. apply elem_of_cons; by right.
  - apply setitem_other; [|done]. intros Heq. eapply Hys; [apply elem_of_cons; by left|].
    done.
Qed.

(** X12. The rule table holds one rule per pattern.  When several rows
    give the same pattern, that is, have the same identifier, the
    properties kept for it are those of the last of these rows. *)
Theorem last_row_of_identifier_wins (env : Env) (ys1 ys2 : list Rule)
    (rx : Pattern) (p : gmap string pyval) :
  path_exists env (opj (ds_path env) "participants.tsv") = true →
  yielded (yield_participant_info env (opj (ds_path env) "participants.tsv"))
    = ys1 ++ (rx, p) :: ys2 →
  (∀ rule, rule ∈ ys2 → pattern rule.1 ≠ pattern rx) →
  NoDup (pattern_keys (path_props env))
  ∧ (∃ rx', (rx', p) ∈ path_props env ∧ pattern rx' = pattern rx)
  ∧ (∀ rx' p', (rx', p') ∈ path_props env → pattern rx' = pattern rx → p' = p).
Proof.
  intros Hex Hys Hlast. unfold path_props. rewrite Hex, Hys.
  assert (Hnd : NoDup (pattern_keys
            (foldl (λ pp rule, setitem pp rule.1 rule.2) [] (ys1 ++ (rx, p) :: ys2)))).
  { apply rule_table_NoDup. apply NoDup_nil_2. }
  assert (Hhas : ∃ rx', (rx', p) ∈ foldl (λ pp rule, setitem pp rule.1 rule.2) []
                                      (ys1 ++ (rx, p) :: ys2)
                        ∧ pattern rx' = pattern rx).
  { rewrite foldl_app. simpl.
    destruct (setitem_has (foldl (λ pp rule, setitem pp rule.1 rule.2) [] ys1) rx p)
      as (rx' & Hin & Hpat).
    exists rx'. split; [|done]. apply rule_table_keeps; [|done].
    intros rule Hrule. rewrite Hpat. by apply Hlast. }
  split; [done|]. split; [done|].
  intros rx1 p1 Hin Hpat. destruct Hhas as (rx' & Hin' & Hpat').
  apply (pattern_key_unique _ _ _ _ _ Hnd Hin Hin'). congruence.
Qed.

Lemma last_row_of_identifier_wins_witness :
  path_exists (subjects_env twice_sub01 ["sub-01/anat/t1.nii"] false)
    (opj (ds_path (subjects_env twice_sub01 ["sub-01/anat/t1.nii"] false))
       "participants.tsv") = true
  ∧ ∀ rx' p', (rx', p') ∈ path_props (subjects_env twice_sub01 ["sub-01/anat/t1.nii"] false) →
              pattern rx' = "^sub-01/.*" → p' = sub01_props_31.
Proof.
  split; [reflexivity|].
  refine (proj2 (proj2 (last_row_of_identifier_wins
            (subjects_env twice_sub01 ["sub-01/anat/t1.nii"] false)
            [(sub01_pattern, sub01_props)] [] sub01_pattern sub01_props_31
            eq_refl _ _))).
  - reflexivity.
  - intros rule Hrule. apply elem_of_nil in Hrule. destruct Hrule.
Defined.

Lemma participant_rules_nonempty (rest : string → option (string → bool))
    (rs : list Row) (tail : option exn) (rx : Pattern) (props : gmap string pyval) :
  (rx, props) ∈ yielded (participant_rules rest rs tail) → size props ≠ 0.
Proof.
  induction rs as [|r rs IH]; simpl.
  - intros H. by apply elem_of_nil in H.
  - destruct (row_has r "participant_id"); simpl;
      [|intros H; by apply elem_of_nil in H].
    destruct (row_props r) as [p|e]; simpl; [|intros H; by apply elem_of_nil in H].
    destruct (Nat.eqb_spec (size p) 0); [done|].
    destruct (re_compile rest (rule_pattern r)) as [rx0|e]; simpl;
      [|intros H; by apply elem_of_nil in H].
    intros [[= -> ->]|Hin]%elem_of_cons; [done | by apply IH].
Qed.

Lemma rule_table_values (ys acc : list Rule) (rx : Pattern) (p : gmap string pyval) :
  (rx, p) ∈ foldl (λ pp rule, setitem pp rule.1 rule.2) acc ys →
  (∃ rx0, (rx0, p) ∈ acc) ∨ (∃ rx0, (rx0, p) ∈ ys).
Proof.
  revert acc. induction ys as [|[rx0 p0] ys IH]; intros acc; simpl; [by eauto|].
  intros [(rx1 & Hin)|(rx1 & Hin)]%IH.
  - apply setitem_elem in Hin as [Hin|(-> & _)]; [by eauto|].
    right. exists rx0. apply elem_of_cons; by left.
  - right. exists rx1. apply elem_of_cons; by right.
Qed.

Lemma row_props_keys (r : Row) (props : gmap string pyval) (j : string) :
  row_props r = Ok props → is_Some (props !! j) → ∃ k, k ∈ (named r).*1 ∧ j = column_key k.
Proof.
  intros [Hc _]%row_props_Ok. revert j.
  eapply (columns_invariant r
            (λ p, ∀ j, is_Some (p !! j) → ∃ k, k ∈ (named r).*1 ∧ j = column_key k));
    [| |exact Hc].
  - intros j [v Hv]. by rewrite lookup_empty in Hv.
  - intros p k p' Hk Hp [->|(s & _ & -> & _)]%column_Ok; [done|].
    intros j [Heq|Hj]%lookup_insert_is_Some'; [by eauto | by apply Hp].
Qed.

Lemma lower_char_lower_char (c : ascii) : lower_char (lower_char c) = lower_char c.
Proof.
  unfold lower_char.
  destruct ((N.leb 65 (N_of_ascii c) && N.leb (N_of_ascii c) 90)
            || (N.leb 192 (N_of_ascii c) && N.leb (N_of_ascii c) 222
                && negb (N.eqb (N_of_ascii c) 215)))%bool eqn:Hc;
    [|by rewrite Hc].
  assert (Hlt : (N_of_ascii c + 32 < 256)%N).
  { apply orb_prop in Hc as [[_ H]%andb_prop|[[_ H]%andb_prop _]%andb_prop];
      apply N.leb_le in H; lia. }
  rewrite N_ascii_embedding by exact Hlt.
  assert ((N.leb 65 (N_of_ascii c + 32) && N.leb (N_of_ascii c + 32) 90)
          || (N.leb 192 (N_of_ascii c + 32) && N.leb (N_of_ascii c + 32) 222
              && negb (N.eqb (N_of_ascii c + 32) 215)) = false)%bool as ->; [|done].
  apply orb_false_intro.
  - apply andb_false_iff. right. apply N.leb_gt.
    apply orb_prop in Hc as [[H _]%andb_prop|[[H _]%andb_prop _]%andb_prop];
      apply N.leb_le in H; lia.
  - apply orb_prop in Hc as [[_ H]%andb_prop|[[H _]%andb_prop _]%andb_prop];
      apply N.leb_le in H.
    + apply andb_false_iff. left. apply andb_false_iff. left. apply N.leb_gt. lia.
    + apply andb_false_iff. left. apply andb_false_iff. right. apply N.leb_gt. lia.
Qed.

Lemma lower_lower (s : string) : lower (lower s) = lower s.
Proof.
  induction s as [|c s IH]; [done|]. simpl. by rewrite IH, lower_char_lower_char.
Qed.

(** X13. Every rule of the rule table has at least one property; its
    properties are non-empty strings, and their keys are the standardized
    keys of columns of the subject table. *)
Theorem rules_hold_text (env : Env) (rx : Pattern) (props : gmap string pyval) :
  (rx, props) ∈ path_props env →
  props ≠ ∅
  ∧ (∀ j v, props !! j = Some v → ∃ s, v = VStr s ∧ s ≠ "")
  ∧ (∀ j, is_Some (props !! j) →
          j = "bids:participant_id" ∨ j = "bids:age(years)"
          ∨ ∃ c, j = "comment<participant#" +:+ c +:+ ">" ∧ lower c = c).
Proof.
  intros Hin. destruct (path_props_from_rows _ _ _ Hin) as (r & _ & Hr & _).
  split; [|split].
  - unfold path_props in Hin. destruct (path_exists env _);
      [|by apply elem_of_nil in Hin].
    apply rule_table_values in Hin as [(rx0 & H)|(rx0 & H)];
      [by apply elem_of_nil in H|].
    apply participant_rules_nonempty in H. intros ->. by rewrite map_size_empty in H.
  - intros j v. by apply (row_props_values r).
  - intros j Hj. destruct (row_props_keys _ _ _ Hr Hj) as (k & _ & ->).
    rewrite column_key_cases.
    destruct (String.eqb (lower k) "participant_id"); [by left|].
    destruct (String.eqb (lower k) "age"); [by right; left|].
    right; right. exists (lower k). split; [done|]. apply lower_lower.
Qed.

Lemma rules_hold_text_witness :
  (sub01_pattern, sub01_props) ∈ path_props (sub01_fails_env false)
  ∧ sub01_props ≠ ∅.
Proof.
  assert (Hin : (sub01_pattern, sub01_props) ∈ path_props (sub01_fails_env false)).
  { apply elem_of_cons. left. reflexivity. }
  split; [exact Hin|].
  exact (proj1 (rules_hold_text (sub01_fails_env false) sub01_pattern sub01_props Hin)).
Defined.

(** * Further properties of the file records *)

(** X14. Every entry of a file record comes either from a rule that
    matches the path of the file or from the query result of the file, under
    the key of the result prefixed with [bids:]; when there is no
    participants.tsv every key of every record starts with [bids:], and the
    record is the query result under the prefixed keys, without its
    mappings. *)
Theorem record_entries (env : Env) (bids : Layout) (f : string)
    (md : gmap string pyval) :
  (f, md) ∈ yielded (_get_cnmeta env bids) →
  (∀ j v, md !! j = Some v →
     (∃ rule, rule ∈ path_props env ∧ rx_match rule.1 f = true ∧ rule.2 !! j = Some v)
     ∨ (∃ raw k, bids (opj (ds_path env) f) = Ok raw
                 ∧ j = "bids:" +:+ k ∧ raw !! k = Some v))
  ∧ (path_exists env (opj (ds_path env) "participants.tsv") = false →
     (∀ j, is_Some (md !! j) → startswith j "bids:" = true)
     ∧ (∀ raw, bids (opj (ds_path env) f) = Ok raw →
               md = dict_comprehension (String.append "bids:")
                      (λ v, negb (is_dict v)) raw)).
Proof.
  intros (_ & _ & base & Hbase & ->)%cnmeta_loop_record.
  assert (Hb : ∀ j v, base !! j = Some v →
                 ∃ raw k, bids (opj (ds_path env) f) = Ok raw
                          ∧ j = "bids:" +:+ k ∧ raw !! k = Some v).
  { intros j v Hj. unfold base_record in Hbase.
    destruct (bids (opj (ds_path env) f)) as [raw|e].
    - injection Hbase as <-.
      apply dict_comprehension_Some in Hj as (k & -> & Hk & _); [|apply _]. eauto.
    - destruct (raiseonerror env); [done|]. injection Hbase as <-.
      by rewrite lookup_empty in Hj. }
  split.
  - intros j v [?|Hj]%overlay_origin; [by left|]. right. by apply Hb.
  - intros Hno. unfold path_props. rewrite Hno. rewrite overlay_nil. split.
    + intros j [v Hj]. destruct (Hb _ _ Hj) as (raw & k & _ & -> & _).
      simpl. by destruct k.
    + intros raw Hraw. unfold base_record in Hbase. rewrite Hraw in Hbase.
      by injection Hbase as <-.
Qed.

Lemma record_entries_witness :
  path_exists bold_env (opj (ds_path bold_env) "participants.tsv") = true
  ∧ path_props bold_env = []
  ∧ ∃ md, ("sub-01/func/bold.nii", md) ∈ yielded (_get_cnmeta bold_env bold_layout)
          ∧ ∀ j v, md !! j = Some v →
                   ∃ k, j = "bids:" +:+ k ∧ bold_meta !! k = Some v.
Proof.
  split; [reflexivity|]. split; [reflexivity|].
  exists (overlay (path_props bold_env) "sub-01/func/bold.nii"
            (dict_comprehension (String.append "bids:") (λ v, negb (is_dict v)) bold_meta)).
  assert (Hin : ("sub-01/func/bold.nii",
                 overlay (path_props bold_env) "sub-01/func/bold.nii"
                   (dict_comprehension (String.append "bids:") (λ v, negb (is_dict v))
                      bold_meta))
                ∈ yielded (_get_cnmeta bold_env bold_layout)).
  { apply elem_of_cons. left. reflexivity. }
  split; [exact Hin|].
  intros j v Hj.
  destruct (proj1 (record_entries _ _ _ _ Hin) j v Hj)
    as [(rule & Hrule & _)|(raw & k & Hraw & Hk & Hv)].
  - apply elem_of_nil in Hrule. destruct Hrule.
  - exists k. split; [exact Hk|]. injection Hraw as <-. exact Hv.
Defined.

(** X15. A key that a matching rule defines has, in the record, the value
    that a matching rule gives it, whatever the query result holds under
    that key: the properties of the subject table overwrite those of the
    query. *)
Theorem rule_overrides_query (env : Env) (bids : Layout) (f : string)
    (md : gmap string pyval) (rule : Rule) (j : string) :
  (f, md) ∈ yielded (_get_cnmeta env bids) →
  rule ∈ path_props env →
  rx_match rule.1 f = true →
  is_Some (rule.2 !! j) →
  ∃ rule' v, rule' ∈ path_props env ∧ rx_match rule'.1 f = true
             ∧ rule'.2 !! j = Some v ∧ md !! j = Some v.
Proof.
  intros (_ & _ & base & _ & ->)%cnmeta_loop_record.
  generalize (path_props env). intros pp. revert base.
  induction pp as [|rule0 pp IH]; intros base Hin Hm Hj.
  - by apply elem_of_nil in Hin.
  - rewrite overlay_cons.
    assert (Hlater : (∃ rule' v, rule' ∈ pp ∧ rx_match rule'.1 f = true
                                 ∧ rule'.2 !! j = Some v
                                 ∧ overlay pp f (if rx_match rule0.1 f
                                                 then rule0.2 ∪ base else base) !! j
                                   = Some v) →
                     ∃ rule' v, rule' ∈ rule0 :: pp ∧ rx_match rule'.1 f = true
                                ∧ rule'.2 !! j = Some v
                                ∧ overlay pp f (if rx_match rule0.1 f
                                                then rule0.2 ∪ base else base) !! j
                                  = Some v).
    { intros (rule' & v & H1 & H2). exists rule', v.
      split; [apply elem_of_cons; by right | done]. }
    apply elem_of_cons in Hin as [->|Hin]; [|by apply Hlater, IH].
    rewrite Hm. destruct Hj as [v0 Hv0].
    assert (Hnow : (rule0.2 ∪ base) !! j = Some v0) by by apply lookup_union_Some_l.
    destruct (overlay pp f (rule0.2 ∪ base) !! j) as [v|] eqn:Hv.
    + apply overlay_origin in Hv as Hor.
      destruct Hor as [(rule' & H1 & H2 & H3)|Hbase].
      * exists rule', v. split; [apply elem_of_cons; by right | done].
      * exists rule0, v. split; [apply elem_of_cons; by left|].
        split; [done|]. split; [congruence | done].
    + assert (is_Some (overlay pp f (rule0.2 ∪ base) !! j)) as [? ?];
        [apply overlay_keeps_keys; by eauto | congruence].
Qed.

Lemma rule_overrides_query_witness :
  sidecar_id_layout (opj (ds_path (sub01_fails_env false)) "sub-01/anat/t1.nii")
    = Ok {["participant_id" := VStr "from-json"]}
  ∧ ∃ md, ("sub-01/anat/t1.nii", md)
            ∈ yielded (_get_cnmeta (sub01_fails_env false) sidecar_id_layout)
          ∧ md !! "bids:participant_id" = Some (VStr "sub-01").
Proof.
  split; [reflexivity|].
  exists (overlay (path_props (sub01_fails_env false)) "sub-01/anat/t1.nii"
            (dict_comprehension (String.append "bids:") (λ v, negb (is_dict v))
               {["participant_id" := VStr "from-json"]})).
  assert (Hin : ("sub-01/anat/t1.nii",
                 overlay (path_props (sub01_fails_env false)) "sub-01/anat/t1.nii"
                   (dict_comprehension (String.append "bids:") (λ v, negb (is_dict v))
                      {["participant_id" := VStr "from-json"]}))
                ∈ yielded (_get_cnmeta (sub01_fails_env false) sidecar_id_layout)).
  { apply elem_of_cons. left. reflexivity. }
  split; [exact Hin|].
  assert (Hrule : (sub01_pattern, sub01_props) ∈ path_props (sub01_fails_env false)).
  { apply elem_of_cons. left. reflexivity. }
  assert (Hkey : is_Some (sub01_props !! "bids:participant_id")).
  { exists (VStr "sub-01"). reflexivity. }
  destruct (rule_overrides_query _ _ _ _ (sub01_pattern, sub01_props)
              "bids:participant_id" Hin Hrule eq_refl Hkey)
    as (rule' & v & Hin' & _ & Hv & Hmd).
  rewrite Hmd, <- Hv.
  apply elem_of_cons in Hin' as [Heq|Hin']; [rewrite Heq; reflexivity|].
  apply elem_of_nil in Hin'. destruct Hin'.
Defined.

(** * Further properties of the loader and of the sex labels *)

(** X16. The rules yielded do not depend on how the reader ends: a
    failure of the reader after some rows loses none of the rules of these
    rows. *)
Theorem reader_error_keeps_rules (rest : string → option (string → bool))
    (rs : list Row) (tail tail' : option exn) :
  yielded (participant_rules rest rs tail) = yielded (participant_rules rest rs tail').
Proof.
  induction rs as [|r rs IH]; simpl; [done|].
  destruct (row_has r "participant_id"); simpl; [|done].
  destruct (row_props r) as [props|e]; simpl; [|done].
  destruct (Nat.eqb (size props) 0); [done|].
  destruct (re_compile rest (rule_pattern r)); simpl; [|done].
  f_equal. exact IH.
Qed.

(** X17. The value stored for a sex or gender column is always a
    non-empty lowercase string, whatever the case of the column name and of
    the field. *)
Theorem sex_label_lowercase (r : Row) (props : gmap string pyval) (j : string)
    (v : pyval) :
  row_props r = Ok props →
  j = "comment<participant#sex>" ∨ j = "comment<participant#gender>" →
  props !! j = Some v →
  ∃ s, v = VStr s ∧ lower s = s ∧ s ≠ "".
Proof.
  intros [Hc _]%row_props_Ok Hj. revert v.
  assert (Hsexj : is_sex_key j = true).
  { by destruct Hj as [->| ->]. }
  eapply (columns_invariant r
            (λ p, ∀ v, p !! j = Some v → ∃ s, v = VStr s ∧ lower s = s ∧ s ≠ ""));
    [| |exact Hc].
  - intros v. by rewrite lookup_empty.
  - intros p k p' _ Hp. unfold column.
    destruct (is_sex_key (column_key k)) eqn:Hsex; simpl.
    + destruct (row_item (named r) k) as [s|]; simpl; [|done].
      destruct (String.eqb_spec (default (lower s) (sex_label_map (lower s))) "")
        as [_|Hne]; simpl; intros [= <-]; [done|].
      intros v. destruct (decide (column_key k = j)) as [<-|Hkj].
      * rewrite lookup_insert_eq. intros [= <-]. eexists. split; [done|].
        split; [|done]. unfold sex_label_map.
        destruct (String.eqb (lower s) "f"); [done|].
        destruct (String.eqb (lower s) "m"); [done|]. apply lower_lower.
      * rewrite lookup_insert_ne by done. apply Hp.
    + assert (column_key k ≠ j) by congruence.
      destruct (row_item (named r) k) as [s|]; simpl; [|by intros [= <-]].
      destruct (String.eqb s ""); simpl; intros [= <-]; [done|].
      intros v. rewrite lookup_insert_ne by done. apply Hp.
Qed.

Lemma sex_label_lowercase_witness :
  row_props capital_sex_row
    = Ok (<["comment<participant#sex>" := VStr "female"]>
            (<["bids:participant_id" := VStr "sub-01"]> ∅))
  ∧ ∃ s, VStr "female" = VStr s ∧ lower s = s ∧ s ≠ "".
Proof.
  assert (Hprops : row_props capital_sex_row
                   = Ok (<["comment<participant#sex>" := VStr "female"]>
                           (<["bids:participant_id" := VStr "sub-01"]> ∅))).
  { reflexivity. }
  split; [exact Hprops|].
  refine (sex_label_lowercase capital_sex_row _ "comment<participant#sex>"
            (VStr "female") Hprops (or_introl eq_refl) _).
  reflexivity.
Defined.
